(** * The season-statistics pipeline of [principal.py]

    A shallow embedding of [load_data] (lines 45-70 of [src/principal.py]),
    of the two module constants it reads ([COLUMN_TRANSLATIONS], [SEASONS])
    and of the library calls it makes, followed by the properties of the
    fetch / normalise / cache pipeline.

    Python values are modelled as the interpreter has them: a [str] is a
    sequence of Unicode code points, [None] is the [None] of [option], a
    raised exception is the [Raise] branch of [result], and the effects of
    the function (HTTP requests, messages put on the page, the memoisation
    store of [st.cache_data]) are threaded through an explicit [Process]
    state. *)

From Stdlib Require Import ZArith NArith QArith_base Lia.
From Stdlib Require Import Strings.String Strings.Ascii Numbers.DecimalString.
From stdpp Require Import base option list gmap.

Local Open Scope N_scope.

(** ** Python strings *)

(** A Python [str]: the list of its code points. *)
Abbreviation str := (list N).

(** UTF-8 decoding, used only to write the literals of the source file
    (which is UTF-8 encoded) as they appear there. *)
Fixpoint utf8_decode (bs : list N) : str :=
  match bs with
  | [] => []
  | b :: r =>
      if b <? 128 then b :: utf8_decode r
      else if b <? 224 then
        match r with
        | b1 :: r1 => ((b mod 32) * 64 + b1 mod 64) :: utf8_decode r1
        | _ => []
        end
      else if b <? 240 then
        match r with
        | b1 :: b2 :: r2 =>
            ((b mod 16) * 4096 + (b1 mod 64) * 64 + b2 mod 64) :: utf8_decode r2
        | _ => []
        end
      else
        match r with
        | b1 :: b2 :: b3 :: r3 =>
            ((b mod 8) * 262144 + (b1 mod 64) * 4096 + (b2 mod 64) * 64 + b3 mod 64)
              :: utf8_decode r3
        | _ => []
        end
  end.

(** [py "..."] is the Python literal ['...']. *)
Definition py (s : string) : str :=
  utf8_decode (map N_of_ascii (list_ascii_of_string s)).

(** [str.isspace] on one character: the code points CPython lists in
    [_PyUnicode_IsWhitespace]. *)
Definition isspace (c : N) : bool :=
  ((9 <=? c) && (c <=? 13)) || ((28 <=? c) && (c <=? 32))
  || (c =? 133) || (c =? 160) || (c =? 5760)
  || ((8192 <=? c) && (c <=? 8202))
  || (c =? 8232) || (c =? 8233) || (c =? 8239) || (c =? 8287) || (c =? 12288).

(** [s.lstrip()]: advance past the leading whitespace. *)
Fixpoint lstrip (s : str) : str :=
  match s with
  | c :: r => if isspace c then lstrip r else s
  | [] => []
  end.

(** [s.rstrip()]: the same scan from the right end. *)
Definition rstrip (s : str) : str := rev (lstrip (rev s)).

(** [s.strip()]: both ends, no argument, so whitespace is what is removed. *)
Definition strip (s : str) : str := rstrip (lstrip s).

(** [str(n)] for an [int]. *)
Definition str_of_int (z : Z) : str :=
  py (NilZero.string_of_int (Z.to_int z)).

(** ** Exceptions and results *)

(** An exception as the handler of line 68 sees it, an instance of
    [Exception]: its class name and [str(e)].  What is not an instance of
    [Exception] (an interrupt of the interpreter, a request to exit) is not
    the failure of a step and is left out. *)
Record exn := Exn { exn_class : str; exn_str : str }.

Inductive result (A : Type) : Type :=
  | Ok (a : A)
  | Raise (e : exn).
Arguments Ok {A} a.
Arguments Raise {A} e.

(** ** Column labels and column indexes (pandas) *)

(** A column label, or one level of a multi-level label: pandas gives a
    [str] for a header cell and an [int] position when the table has no
    header row. *)
Inductive label :=
  | LStr (s : str)
  | LInt (z : Z).

(** [df.columns]: a flat [Index], or a [MultiIndex] whose values are tuples
    of levels. *)
Inductive Columns :=
  | Index (labels : list label)
  | MultiIndex (tuples : list (list label)).

(** [sep.join(items)], following CPython: every item must be a [str], the
    first that is not raises [TypeError] naming its position. *)
Fixpoint join_from (i : nat) (sep : str) (items : list label) : result str :=
  match items with
  | [] => Ok []
  | LInt _ :: _ =>
      Raise (Exn (py "TypeError")
               (py "sequence item " ++ str_of_int (Z.of_nat i)
                  ++ py ": expected str instance, int found"))
  | LStr s :: rest =>
      match rest with
      | [] => Ok s
      | _ :: _ =>
          match join_from (S i) sep rest with
          | Ok t => Ok (s ++ sep ++ t)
          | Raise e => Raise e
          end
      end
  end.

Definition join (sep : str) (items : list label) : result str :=
  join_from 0 sep items.

(** The list comprehension of line 62:
    [[' '.join(col).strip() for col in df_pd.columns.values]]. *)
Fixpoint flatten_tuples (cols : list (list label)) : result (list label) :=
  match cols with
  | [] => Ok []
  | col :: rest =>
      match join (py " ") col with
      | Raise e => Raise e
      | Ok s =>
          match flatten_tuples rest with
          | Raise e => Raise e
          | Ok names => Ok (LStr (strip s) :: names)
          end
      end
  end.

(** Lines 61-62: a [MultiIndex] is replaced by the flat list of joined and
    stripped names, any other index is left as it is.  Either way the
    column index is flat afterwards, which the result type records. *)
Definition flatten_header (cols : Columns) : result (list label) :=
  match cols with
  | MultiIndex tuples => flatten_tuples tuples
  | Index labels => Ok labels
  end.


(** ** Tables *)

(** A cell of a pandas frame: missing ([NaN] in a numeric column, [NaN] or
    [None] in an object column), or an integer, a finite float or a text
    value. *)
Inductive pd_value :=
  | PdNA
  | PdInt (z : Z)
  | PdFloat (q : Q)
  | PdStr (s : str).

(** One table as [pd.read_html] returns it: the column index and the body
    rows in document order. *)
Record DataFrame := { columns : Columns; values : list (list pd_value) }.

(** The same frame once its column index is flat (after line 62). *)
Record Frame := { labels : list label; rows : list (list pd_value) }.

(** A cell of a polars frame. *)
Inductive pl_value :=
  | Null
  | Int64 (z : Z)
  | Float64 (q : Q)
  | Utf8 (s : str).

(** A polars [DataFrame]: column names and rows. *)
Record PlFrame := { names : list str; records : list (list pl_value) }.

(** ** Module constants *)

(** [COLUMN_TRANSLATIONS], lines 13-32. *)
Definition COLUMN_TRANSLATIONS : gmap str str :=
  list_to_map
    [ (py "Class.", py "Classificação");
      (py "País", py "País");
      (py "LgRk", py "Posição na Liga");
      (py "MP", py "Jogos Disputados");
      (py "V", py "Vitórias");
      (py "E", py "Empates");
      (py "D", py "Derrotas");
      (py "GP", py "Gols pró");
      (py "GC", py "Gols contra");
      (py "GD", py "Diferença de Gols");
      (py "Pt", py "Pontos");
      (py "Pts/PPJ", py "Pontos/Partida");
      (py "xG", py "Gols previstos");
      (py "xGA", py "xG sofrido");
      (py "xGD", py "Diferença xG");
      (py "xGD/90", py "Diferença xG/90");
      (py "Últimos 5", py "Últimas cinco partidas");
      (py "Público", py "Comparecimento/Jogo") ].

(** [SEASONS], lines 35-42: label of the selector, season code. *)
Definition SEASONS : list (str * option str) :=
  [ (py "2023-2024 (Atual)", None);
    (py "2022-2023", Some (py "2022-2023"));
    (py "2021-2022", Some (py "2021-2022"));
    (py "2020-2021", Some (py "2020-2021"));
    (py "2019-2020", Some (py "2019-2020"));
    (py "2018-2019", Some (py "2018-2019")) ].

(** ** Normalisation steps *)

(** The function pandas builds from a dict mapper: a label that is a key is
    replaced by its value, any other label is returned as it is. *)
Definition rename_label (mapper : gmap str str) (l : label) : label :=
  match l with
  | LStr s =>
      match mapper !! s with
      | Some t => LStr t
      | None => l
      end
  | LInt _ => l
  end.

(** [df.rename(columns=mapper)] on a flat index: every label goes through
    the mapper, the data is not touched. *)
Definition rename (mapper : gmap str str) (df : Frame) : Frame :=
  {| labels := map (rename_label mapper) (labels df); rows := rows df |}.

(** [str(col_name)], the key polars files a column under. *)
Definition column_name (l : label) : str :=
  match l with
  | LStr s => s
  | LInt z => str_of_int z
  end.

(** [d[k] = v] on an insertion-ordered dict: a known key keeps its place
    and takes the new value, a new key goes last. *)
Fixpoint dict_set {V : Type} (k : str) (v : V) (d : list (str * V)) : list (str * V) :=
  match d with
  | [] => [(k, v)]
  | (k', v') :: rest =>
      if decide (k' = k) then (k, v) :: rest else (k', v') :: dict_set k v rest
  end.

(** The loop of [pl.from_pandas] that files each column of the pandas frame
    under its name: [arrow_dict[str(col_name)] = <column>], in column order.
    A column is represented by its position in the pandas frame. *)
Fixpoint arrow_dict_from (j : nat) (ls : list label) (d : list (str * nat))
  : list (str * nat) :=
  match ls with
  | [] => d
  | l :: rest => arrow_dict_from (S j) rest (dict_set (column_name l) j d)
  end.

Definition arrow_dict (ls : list label) : list (str * nat) :=
  arrow_dict_from 0 ls [].

(** A pandas cell as polars receives it ([nan_to_null=True], the default of
    [pl.from_pandas]): a missing value becomes a null. *)
Definition to_arrow (v : pd_value) : pl_value :=
  match v with
  | PdNA => Null
  | PdInt z => Int64 z
  | PdFloat q => Float64 q
  | PdStr s => Utf8 s
  end.

(** The cells of one row, for the columns the dict holds.  A pandas frame
    is rectangular; a row written shorter than the header reads as missing
    past its end. *)
Definition select_cells (d : list (str * nat)) (row : list pd_value) : list pl_value :=
  map (fun kv => to_arrow (default PdNA (row !! snd kv))) d.

(** [pa.table(arrow_dict)], the polars frame built from the dict. *)
Definition arrow_table (df : Frame) : PlFrame :=
  let d := arrow_dict (labels df) in
  {| names := map fst d; records := map (select_cells d) (rows df) |}.

Definition is_null (v : pl_value) : bool :=
  match v with
  | Null => true
  | _ => false
  end.

(** A row that holds a null in some column. *)
Definition has_null (row : list pl_value) : bool := existsb is_null row.

(** [df.drop_nulls()]: the rows without a null, in their order. *)
Definition drop_nulls (df : PlFrame) : PlFrame :=
  {| names := names df;
     records := List.filter (fun row => negb (has_null row)) (records df) |}.

(** ** The outside world and the state of the process *)

(** What [requests.get] returns: the status line and the decoded body.
    [load_data] reads [text] only. *)
Record Response := { status_code : Z; text : str }.

(** The behaviour [load_data] does not decide, taken as given:
    - [requests_get n url headers]: the outcome of an HTTP GET when [n]
      requests were sent before it (the site and the network change over
      time); a transport failure raises, any HTTP status returns;
    - [read_html doc]: the tables pandas finds in a document, or the
      exception it raises ([ValueError] when there is none);
    - [arrow_error df]: the exception pyarrow raises when it cannot build
      a typed column from a column of the frame, if it does. *)
Record World := {
  requests_get : nat -> str -> list (str * str) -> result Response;
  read_html : str -> result (list DataFrame);
  arrow_error : Frame -> option exn
}.

(** The state [load_data] acts on: the requests sent so far, the documents
    handed to the parser so far, the [st.error] elements on the page, and
    the store of [st.cache_data] for this function, from the argument to the
    returned value and the elements the call put on the page. *)
Record Process := {
  requests_sent : nat;
  documents_parsed : nat;
  page : list str;
  cache : gmap (option str) (option PlFrame * list str)
}.

Definition set_page (els : list str) (p : Process) : Process :=
  {| requests_sent := requests_sent p; documents_parsed := documents_parsed p;
     page := els; cache := cache p |}.

Definition count_request (p : Process) : Process :=
  {| requests_sent := S (requests_sent p); documents_parsed := documents_parsed p;
     page := page p; cache := cache p |}.

Definition count_document (p : Process) : Process :=
  {| requests_sent := requests_sent p; documents_parsed := S (documents_parsed p);
     page := page p; cache := cache p |}.

Definition set_cache (c : gmap (option str) (option PlFrame * list str)) (p : Process)
  : Process :=
  {| requests_sent := requests_sent p; documents_parsed := documents_parsed p;
     page := page p; cache := c |}.

(** A computation that reads and updates the process and returns or
    raises; what it did before raising stays done. *)
Definition M (A : Type) : Type := Process -> result A * Process.

Definition ret {A} (a : A) : M A := fun p => (Ok a, p).

Definition bind {A B} (m : M A) (k : A -> M B) : M B :=
  fun p =>
    match m p with
    | (Ok a, p') => k a p'
    | (Raise e, p') => (Raise e, p')
    end.

Notation "'let*' x ':=' m 'in' k" := (bind m (fun x => k))
  (at level 10, x name, m at level 100, k at level 200).

(** A pure step that may raise. *)
Definition lift {A} (r : result A) : M A := fun p => (r, p).

(** [try: body / except Exception as e: handler(e)]. *)
Definition try_except {A} (body : M A) (handler : exn -> M A) : M A :=
  fun p =>
    match body p with
    | (Ok a, p') => (Ok a, p')
    | (Raise e, p') => handler e p'
    end.

(** [requests.get(url, headers=headers)]. *)
Definition http_get (w : World) (url : str) (headers : list (str * str)) : M Response :=
  fun p => (requests_get w (requests_sent p) url headers, count_request p).

(** [pd.read_html(doc)]. *)
Definition pd_read_html (w : World) (doc : str) : M (list DataFrame) :=
  fun p => (read_html w doc, count_document p).

(** [tables[0]] on a Python list. *)
Definition first_item {A} (l : list A) : result A :=
  match l with
  | x :: _ => Ok x
  | [] => Raise (Exn (py "IndexError") (py "list index out of range"))
  end.

(** What polars raises for a frame in which two columns have the same
    name. *)
Definition duplicate_names_error : exn :=
  Exn (py "ValueError")
    (py "Polars dataframes must have unique string column names. Please check your pandas dataframe for duplicates.").

(** [pl.from_pandas(df)]: polars first compares the number of distinct
    [str(col)] with the number of columns and refuses a frame in which two
    labels read as the same name; any other frame is converted column by
    column into the dict, which pyarrow may refuse. *)
Definition from_pandas (w : World) (df : Frame) : result PlFrame :=
  if bool_decide (NoDup (map column_name (labels df))) then
    match arrow_error w df with
    | Some e => Raise e
    | None => Ok (arrow_table df)
    end
  else Raise duplicate_names_error.

(** [st.error(msg)]. *)
Definition st_error (msg : str) : M unit :=
  fun p => (Ok tt, set_page (page p ++ [msg]) p).

(** ** [load_data] *)

(** Python truth value of the argument: [None] and [''] are false. *)
Definition truthy (season_code : option str) : bool :=
  match season_code with
  | Some (_ :: _) => true
  | _ => false
  end.

(** Lines 48-51. *)
Definition build_url (season_code : option str) : str :=
  if truthy season_code then
    let s := default [] season_code in
    py "https://fbref.com/pt/comps/Big5/" ++ s ++ py "/" ++ s
      ++ py "-Maiores-5-Ligas-Europeias-Estatisticas"
  else py "https://fbref.com/pt/comps/Big5/Maiores-5-Ligas-Europeias-Estatisticas".

(** Lines 53-54. *)
Definition headers : list (str * str) :=
  [ (py "User-Agent",
     py "Mozilla/5.0 (Windows NT 10.0; Win64; x64) AppleWebKit/537.36 (KHTML, like Gecko) Chrome/58.0.3029.110 Safari/537.3") ].

(** Lines 61-65, what is done to the extracted table: flatten the header,
    translate the labels, convert to polars, drop the rows with a null. *)
Definition normalize (w : World) (df_pd : DataFrame) : result PlFrame :=
  match flatten_header (columns df_pd) with
  | Raise e => Raise e
  | Ok cols =>
      let df_pd := rename COLUMN_TRANSLATIONS {| labels := cols; rows := values df_pd |} in
      match from_pandas w df_pd with
      | Raise e => Raise e
      | Ok df => Ok (drop_nulls df)
      end
  end.

(** Lines 57-66, the body of the [try]. *)
Definition load_data_try (w : World) (url : str) : M (option PlFrame) :=
  let* response := http_get w url headers in
  let* tables := pd_read_html w (text response) in
  let* df_pd := lift (first_item tables) in
  let* df := lift (normalize w df_pd) in
  ret (Some df).

(** The message of line 69 for an exception. *)
Definition error_message (e : exn) : str := py "Erro ao carregar dados: " ++ exn_str e.

(** Lines 68-70, the handler. *)
Definition load_data_except (e : exn) : M (option PlFrame) :=
  let* _ := st_error (error_message e) in
  ret None.

(** The function under the decorator, lines 46-70. *)
Definition load_data_body (w : World) (season_code : option str) : M (option PlFrame) :=
  try_except (load_data_try w (build_url season_code)) load_data_except.

(** [@st.cache_data]: a call whose argument is in the store returns the
    stored value and shows again the elements stored with it, without
    running the function; any other call runs it and, when it returns,
    stores the returned value, whatever it is, with the elements the call
    showed.  A call that raises stores nothing.  The decorator is used
    bare, with neither [ttl] nor [max_entries], so no entry ever leaves the
    store. *)
Definition cache_data (f : option str -> M (option PlFrame)) (arg : option str)
  : M (option PlFrame) :=
  fun p =>
    match cache p !! arg with
    | Some (value, elements) => (Ok value, set_page (page p ++ elements) p)
    | None =>
        match f arg (set_page [] p) with
        | (Ok value, p') =>
            (Ok value,
             set_cache (<[arg := (value, page p')]> (cache p'))
               (set_page (page p ++ page p') p'))
        | (Raise e, p') => (Raise e, set_page (page p ++ page p') p')
        end
    end.

(** [load_data] as the module exports it, line 45. *)
Definition load_data (w : World) : option str -> M (option PlFrame) :=
  cache_data (load_data_body w).

(** A process that has done nothing yet. *)
Definition fresh : Process :=
  {| requests_sent := 0; documents_parsed := 0; page := []; cache := ∅ |}.

(** ** Notions the properties are stated with *)

(** The state after a series of calls of [load_data], one per argument. *)
Fixpoint calls (w : World) (args : list (option str)) (p : Process) : Process :=
  match args with
  | [] => p
  | arg :: rest => calls w rest (snd (load_data w arg p))
  end.

(** [needle] occurs in [hay] as a run of consecutive characters. *)
Definition contains (hay needle : str) : Prop :=
  exists before after, hay = before ++ needle ++ after.

(** The pieces of a string between the occurrences of a character; for a
    URL and ["/"], its segments. *)
Fixpoint split_on (c : N) (s : str) : list str :=
  match s with
  | [] => [[]]
  | x :: r =>
      if x =? c then [] :: split_on c r
      else
        match split_on c r with
        | piece :: pieces => (x :: piece) :: pieces
        | [] => [[x]]
        end
  end.

Definition segments (url : str) : list str := split_on 47 url.

(** What the spec says of a flattened name: the levels, one space between
    each two. *)
Definition joined (sep : str) (levels : list str) : str :=
  match levels with
  | [] => []
  | first :: others => first ++ concat (map (fun level => sep ++ level) others)
  end.

Definition starts_with_space (s : str) : bool :=
  match s with
  | c :: _ => isspace c
  | [] => false
  end.

Definition ends_with_space (s : str) : bool := starts_with_space (rev s).

(** What the spec says of trimming: [t] is [s] without its surrounding
    whitespace. *)
Definition trim_of (s t : str) : Prop :=
  exists before after,
    s = before ++ t ++ after
    /\ forallb isspace before = true /\ forallb isspace after = true
    /\ starts_with_space t = false /\ ends_with_space t = false.

(** What the URL of one entry of [SEASONS] has to look like. *)
Definition season_url_ok (entry : str * option str) : Prop :=
  match snd entry with
  | None =>
      build_url None = py "https://fbref.com/pt/comps/Big5/Maiores-5-Ligas-Europeias-Estatisticas"
      /\ segments (build_url None) =
           [py "https:"; []; py "fbref.com"; py "pt"; py "comps"; py "Big5";
            py "Maiores-5-Ligas-Europeias-Estatisticas"]
  | Some season =>
      segments (build_url (Some season)) =
        [py "https:"; []; py "fbref.com"; py "pt"; py "comps"; py "Big5";
         season; season ++ py "-Maiores-5-Ligas-Europeias-Estatisticas"]
      /\ contains (build_url (Some season)) (py "/" ++ season ++ py "/" ++ season ++ py "-")
  end.

(** A missing cell of a pandas frame. *)
Definition is_missing (v : pd_value) : bool :=
  match v with
  | PdNA => true
  | _ => false
  end.

(** Two worlds are the same but for the status codes of the responses. *)
Definition same_but_status (w w' : World) : Prop :=
  (forall n url hs,
      match requests_get w n url hs, requests_get w' n url hs with
      | Ok r, Ok r' => text r = text r'
      | Raise e, Raise e' => e = e'
      | _, _ => False
      end)
  /\ (forall doc, read_html w doc = read_html w' doc)
  /\ (forall df, arrow_error w df = arrow_error w' df).

(** ** Sample tables and worlds *)

(** A table with the two-level header of the site, two columns. *)
Definition two_level_table : DataFrame :=
  {| columns := MultiIndex [[LStr (py "Geral"); LStr (py "MP")]; [LStr (py "Geral"); LStr (py "V")]];
     values := [[PdInt 10; PdInt 7]; [PdNA; PdInt 5]; [PdInt 12; PdInt 8]] |}.

(** A table whose column [V] holds a dash in one row: pandas reads such a
    column as text. *)
Definition dash_table : DataFrame :=
  {| columns := Index [LStr (py "MP"); LStr (py "V")];
     values := [[PdInt 10; PdStr (py "—")]; [PdInt 12; PdStr (py "7")]] |}.

(** A table whose header has a level that is not a [str]. *)
Definition int_level_table : DataFrame :=
  {| columns := MultiIndex [[LStr (py "Geral"); LInt 0]]; values := [[PdInt 1]] |}.

(** A frame with a source column and a column already named as the
    translation of the first. *)
Definition colliding_frame : Frame :=
  {| labels := [LStr (py "MP"); LStr (py "Jogos Disputados")];
     rows := [[PdNA; PdInt 38]; [PdInt 37; PdInt 38]] |}.

(** The same columns as a table pandas returns. *)
Definition colliding_table : DataFrame :=
  {| columns := Index [LStr (py "MP"); LStr (py "Jogos Disputados")];
     values := [[PdNA; PdInt 38]; [PdInt 37; PdInt 38]] |}.

(** A site that answers every request with status [status] and a page in
    which pandas finds [table]. *)
Definition serving (status : Z) (table : DataFrame) : World :=
  {| requests_get := fun _ _ _ => Ok {| status_code := status; text := py "<table>" |};
     read_html := fun _ => Ok [table];
     arrow_error := fun _ => None |}.

(** The same site behind a network that drops the first request of the
    process and delivers the later ones. *)
Definition first_request_lost (table : DataFrame) : World :=
  {| requests_get := fun n _ _ =>
       match n with
       | O => Raise (Exn (py "ConnectionError") (py "Connection aborted."))
       | S _ => Ok {| status_code := 200; text := py "<table>" |}
       end;
     read_html := fun _ => Ok [table];
     arrow_error := fun _ => None |}.

(** A parser that returns an empty list of tables. *)
Definition empty_listing : World :=
  {| requests_get := fun _ _ _ => Ok {| status_code := 200; text := py "<html></html>" |};
     read_html := fun _ => Ok [];
     arrow_error := fun _ => None |}.

(** A site whose page has no table: pandas raises. *)
Definition no_table : World :=
  {| requests_get := fun _ _ _ => Ok {| status_code := 200; text := py "<html></html>" |};
     read_html := fun _ => Raise (Exn (py "ValueError") (py "No tables found"));
     arrow_error := fun _ => None |}.

(** The process of [first_request_lost] after one call for the current
    season. *)
Definition after_lost_request : Process :=
  snd (load_data (first_request_lost dash_table) None fresh).

(** ** The table in the hands of the caller *)

(** What [main] relies on in a table: distinct column names, rows as wide
    as the header, and no null anywhere. *)
Definition table_ok (df : PlFrame) : Prop :=
  NoDup (names df)
  /\ Forall (fun row => has_null row = false /\ length row = length (names df))
       (records df).

(** What the store holds after calls of [load_data]: a table comes with no
    page element, [None] comes with the one message of its failure. *)
Definition store_ok (p : Process) : Prop :=
  forall arg v elements,
    cache p !! arg = Some (v, elements) ->
    match v with
    | Some df => table_ok df /\ elements = []
    | None => exists e, elements = [error_message e]
    end.

(** The position of a column name in the header of a polars frame. *)
Fixpoint index_of (name : str) (ns : list str) : option nat :=
  match ns with
  | [] => None
  | n :: rest => if decide (n = name) then Some 0%nat else S <$> index_of name rest
  end.

(** [df[name]] (lines 118, 166): the cells of the column, top to bottom;
    [None] stands for the [ColumnNotFoundError] polars raises when the
    frame has no such column, which [main] does not catch. *)
Definition get_column (df : PlFrame) (name : str) : option (list pl_value) :=
  match index_of name (names df) with
  | Some j => Some (map (fun row => default Null (row !! j)) (records df))
  | None => None
  end.

(** [cell == selected] as [pl.col(name) == selected] computes it for a cell
    and a value of the same type: equal integers, equal numbers, equal
    texts; a null on either side gives null, which a filter reads as no
    match.  [main] takes the value it compares with from the column itself,
    so the two sides have one type there; a comparison across types, which
    polars coerces or refuses, is never reached and reads as no match. *)
Definition value_eq (cell selected : pl_value) : bool :=
  match cell, selected with
  | Int64 a, Int64 b => Z.eqb a b
  | Float64 a, Float64 b => Qeq_bool a b
  | Utf8 a, Utf8 b => bool_decide (a = b)
  | _, _ => false
  end.

(** [df.filter(pl.col(name) == selected)] (lines 122, 174): the rows whose
    cell in the column matches, in their order; [None] again stands for
    [ColumnNotFoundError]. *)
Definition filter_eq (df : PlFrame) (name : str) (selected : pl_value) : option PlFrame :=
  match index_of name (names df) with
  | Some j =>
      Some {| names := names df;
              records := List.filter (fun row => value_eq (default Null (row !! j)) selected)
                           (records df) |}
  | None => None
  end.

(** A level of a header that [str.join] accepts. *)
Definition is_str (l : label) : bool :=
  match l with
  | LStr _ => true
  | LInt _ => false
  end.

(** A table in which every row lacks a value. *)
Definition all_missing_table : DataFrame :=
  {| columns := Index [LStr (py "Equipe"); LStr (py "MP")];
     values := [[PdStr (py "Arsenal"); PdNA]; [PdNA; PdInt 38]] |}.

(** A standings table of three teams. *)
Definition standings : PlFrame :=
  {| names := [py "Equipe"; py "País"; py "Pontos"];
     records := [[Utf8 (py "Arsenal"); Utf8 (py "eng ENG"); Int64 89];
                 [Utf8 (py "Girona"); Utf8 (py "es ESP"); Int64 81];
                 [Utf8 (py "Liverpool"); Utf8 (py "eng ENG"); Int64 82]] |}.

(** ** Season URLs *)

Lemma build_url_season (c : N) (s : str) :
  build_url (Some (c :: s)) =
    py "https://fbref.com/pt/comps/Big5/" ++ (c :: s) ++ py "/" ++ (c :: s)
      ++ py "-Maiores-5-Ligas-Europeias-Estatisticas".
Proof. reflexivity. Qed.

Lemma build_url_contains (c : N) (s : str) :
  contains (build_url (Some (c :: s))) (py "/" ++ (c :: s) ++ py "/" ++ (c :: s) ++ py "-").
Proof.
  exists (py "https://fbref.com/pt/comps/Big5"), (py "Maiores-5-Ligas-Europeias-Estatisticas").
  rewrite build_url_season, <- !app_assoc. vm_compute. reflexivity.
Qed.

(** C3: for every entry of [SEASONS] the URL has the season string as its
    own path segment and again at the head of the file name, except for the
    entry whose code is [None], whose URL is the base listing URL with no
    season segment; any non-empty season string is interpolated the same
    way, and "2021-2022" gives a URL containing "/2021-2022/2021-2022-". *)
Theorem season_urls :
  Forall season_url_ok SEASONS
  /\ (forall c s,
        build_url (Some (c :: s)) =
          py "https://fbref.com/pt/comps/Big5/" ++ (c :: s) ++ py "/" ++ (c :: s)
            ++ py "-Maiores-5-Ligas-Europeias-Estatisticas"
        /\ contains (build_url (Some (c :: s)))
             (py "/" ++ (c :: s) ++ py "/" ++ (c :: s) ++ py "-"))
  /\ contains (build_url (Some (py "2021-2022"))) (py "/2021-2022/2021-2022-")
  /\ build_url (Some (py "2021-2022")) =
       py "https://fbref.com/pt/comps/Big5/2021-2022/2021-2022-Maiores-5-Ligas-Europeias-Estatisticas".
Proof.
  split; [| split; [| split]].
  - unfold SEASONS.
    repeat (apply List.Forall_cons; [unfold season_url_ok; cbn [snd]; split |]);
      try apply List.Forall_nil; try (vm_compute; reflexivity);
      match goal with |- contains (build_url (Some ?s)) _ =>
        let s' := eval vm_compute in s in
        change s with s';
        match s' with ?c :: ?r => exact (build_url_contains c r) end
      end.
  - intros c s. split; [apply build_url_season | apply build_url_contains].
  - exists (py "https://fbref.com/pt/comps/Big5"), (py "Maiores-5-Ligas-Europeias-Estatisticas").
    vm_compute. reflexivity.
  - vm_compute. reflexivity.
Qed.

(** ** Header flattening *)

Lemma lstrip_split (s : str) :
  exists before,
    s = before ++ lstrip s /\ forallb isspace before = true
    /\ starts_with_space (lstrip s) = false.
Proof.
  induction s as [| c r IH]; simpl.
  - exists []. auto.
  - destruct (isspace c) eqn:Hc.
    + destruct IH as (l & Hl & Hsp & Hst).
      exists (c :: l). simpl. rewrite Hc, Hsp. repeat split; auto. congruence.
    + exists []. simpl. auto.
Qed.

Lemma lstrip_spaces_app (l x : str) :
  forallb isspace l = true -> lstrip (l ++ x) = lstrip x.
Proof.
  induction l as [| c l IH]; simpl; [reflexivity |].
  intros H. apply andb_prop in H as [Hc Hl]. rewrite Hc. auto.
Qed.

Lemma lstrip_fixed (s : str) : starts_with_space s = false -> lstrip s = s.
Proof. destruct s; simpl; [reflexivity |]. intros ->. reflexivity. Qed.

Lemma lstrip_spaces (l : str) : forallb isspace l = true -> lstrip l = [].
Proof.
  intros H. rewrite <- (app_nil_r l). rewrite lstrip_spaces_app by assumption. reflexivity.
Qed.

Lemma forallb_rev {A} (f : A -> bool) (l : list A) :
  forallb f (rev l) = forallb f l.
Proof.
  induction l as [| x l IH]; simpl; [reflexivity |].
  rewrite forallb_app, IH. simpl. rewrite andb_true_r. apply andb_comm.
Qed.

Lemma starts_with_space_prefix (t r : str) :
  starts_with_space (t ++ r) = false -> starts_with_space t = false.
Proof. destruct t; simpl; auto. Qed.

Lemma strip_trim_of (s : str) : trim_of s (strip s).
Proof.
  unfold strip, rstrip.
  destruct (lstrip_split s) as (l & Hl & Hsp & Hst).
  destruct (lstrip_split (rev (lstrip s))) as (r & Hr & Hrsp & Hrst).
  set (m := lstrip s) in *. set (t := lstrip (rev m)) in *.
  assert (Hm : m = rev t ++ rev r).
  { rewrite <- (rev_involutive m), Hr, rev_app_distr. reflexivity. }
  exists l, (rev r). repeat split.
  - rewrite <- Hm. exact Hl.
  - exact Hsp.
  - rewrite forallb_rev. exact Hrsp.
  - rewrite Hm in Hst. eapply starts_with_space_prefix, Hst.
  - unfold ends_with_space. rewrite rev_involutive. exact Hrst.
Qed.

Lemma trim_of_unique (s t : str) : trim_of s t -> t = strip s.
Proof.
  intros (l & r & -> & Hl & Hr & Hst & Hen).
  unfold strip, rstrip. rewrite lstrip_spaces_app by assumption.
  destruct t as [| c t'].
  - simpl. rewrite (lstrip_spaces r) by assumption. reflexivity.
  - rewrite (lstrip_fixed ((c :: t') ++ r)) by exact Hst.
    rewrite rev_app_distr, lstrip_spaces_app by (rewrite forallb_rev; assumption).
    rewrite lstrip_fixed by exact Hen. symmetry. apply rev_involutive.
Qed.

Lemma join_from_strs (i : nat) (sep : str) (levels : list str) :
  join_from i sep (map LStr levels) = Ok (joined sep levels).
Proof.
  revert i. induction levels as [| a rest IH]; intros i; [reflexivity |].
  destruct rest as [| b rest'].
  - simpl. rewrite app_nil_r. reflexivity.
  - change (join_from i sep (map LStr (a :: b :: rest')))
      with (match join_from (S i) sep (map LStr (b :: rest')) with
            | Ok t => Ok (a ++ sep ++ t)
            | Raise e => Raise e
            end).
    rewrite IH. simpl. rewrite <- !app_assoc. reflexivity.
Qed.

Lemma flatten_tuples_strs (tuples : list (list str)) :
  flatten_tuples (map (map LStr) tuples) =
    Ok (map (fun levels => LStr (strip (joined (py " ") levels))) tuples).
Proof.
  induction tuples as [| col rest IH]; [reflexivity |].
  simpl. unfold join. rewrite join_from_strs, IH. reflexivity.
Qed.

(** C4: a multi-level header is flattened column by column into its levels
    joined by one space, with the surrounding whitespace trimmed off; a
    single-level header is returned as it is, so flattening a flattened
    header changes nothing; the header [("Geral","MP"), ("Geral","V")]
    becomes ["Geral MP", "Geral V"]. *)
Theorem header_flattening :
  (forall tuples : list (list str),
      flatten_header (MultiIndex (map (map LStr) tuples)) =
        Ok (map (fun levels => LStr (strip (joined (py " ") levels))) tuples))
  /\ (forall s t : str, trim_of s t <-> t = strip s)
  /\ (forall flat : list label, flatten_header (Index flat) = Ok flat)
  /\ (forall (cols : Columns) (flat : list label),
        flatten_header cols = Ok flat -> flatten_header (Index flat) = Ok flat)
  /\ flatten_header
       (MultiIndex [[LStr (py "Geral"); LStr (py "MP")]; [LStr (py "Geral"); LStr (py "V")]])
     = Ok [LStr (py "Geral MP"); LStr (py "Geral V")].
Proof.
  split; [| split; [| split; [| split]]].
  - intros tuples. apply flatten_tuples_strs.
  - intros s t. split; [apply trim_of_unique | intros ->; apply strip_trim_of].
  - reflexivity.
  - reflexivity.
  - vm_compute. reflexivity.
Qed.

Lemma header_flattening_witness :
  flatten_header (Index [LStr (py "Geral MP"); LStr (py "Geral V")])
  = Ok [LStr (py "Geral MP"); LStr (py "Geral V")].
Proof.
  apply (proj1 (proj2 (proj2 (proj2 header_flattening)))
           (MultiIndex [[LStr (py "Geral"); LStr (py "MP")]; [LStr (py "Geral"); LStr (py "V")]])).
  vm_compute. reflexivity.
Defined.


(** ** Column translation *)


Lemma dict_set_keys {V} (k : str) (v : V) (d : list (str * V)) (x : str) :
  x ∈ map fst (dict_set k v d) <-> x = k \/ x ∈ map fst d.
Proof.
  induction d as [| [k' v'] d IH]; simpl.
  - rewrite list_elem_of_singleton. split; [auto | intros [H | H]; [assumption |]].
    apply elem_of_nil in H. contradiction.
  - destruct (decide (k' = k)) as [-> |]; simpl; rewrite !elem_of_cons.
    + tauto.
    + rewrite IH. tauto.
Qed.


Lemma dict_set_fresh {V} (k : str) (v : V) (d : list (str * V)) :
  k ∉ map fst d -> dict_set k v d = d ++ [(k, v)].
Proof.
  induction d as [| [k' v'] d IH]; simpl; [reflexivity |].
  rewrite not_elem_of_cons. intros [Hne Hnot].
  destruct (decide (k' = k)); [congruence |]. rewrite IH by assumption. reflexivity.
Qed.

Lemma arrow_dict_from_distinct (j : nat) (ls : list label) (d : list (str * nat)) :
  NoDup (map column_name ls) ->
  (forall x, x ∈ map column_name ls -> x ∉ map fst d) ->
  arrow_dict_from j ls d = d ++ zip (map column_name ls) (seq j (length ls)).
Proof.
  revert j d. induction ls as [| l ls IH]; intros j d Hnd Hfresh; simpl.
  - rewrite app_nil_r. reflexivity.
  - simpl in Hnd. apply NoDup_cons in Hnd as [Hl Hnd].
    rewrite dict_set_fresh by (apply Hfresh; simpl; left).
    rewrite IH; [rewrite <- app_assoc; reflexivity | assumption |].
    intros x Hx. rewrite map_app, elem_of_app. simpl. rewrite list_elem_of_singleton.
    intros [Hd | ->]; [| contradiction].
    apply (Hfresh x); [simpl; right; assumption | assumption].
Qed.

Lemma arrow_dict_distinct (ls : list label) :
  NoDup (map column_name ls) ->
  arrow_dict ls = zip (map column_name ls) (seq 0 (length ls)).
Proof.
  intros Hnd. unfold arrow_dict. rewrite arrow_dict_from_distinct; [reflexivity | assumption |].
  intros x _. simpl. apply not_elem_of_nil.
Qed.

Lemma select_cells_suffix (ns : list str) (before row : list pd_value) :
  length ns = length row ->
  select_cells (zip ns (seq (length before) (length row))) (before ++ row) = map to_arrow row.
Proof.
  revert ns before. induction row as [| v row IH]; intros ns before Hlen.
  - destruct ns; reflexivity.
  - destruct ns as [| n ns]; [discriminate |]. simpl in Hlen.
    simpl. f_equal.
    + rewrite lookup_app_r by lia. rewrite Nat.sub_diag. reflexivity.
    + specialize (IH ns (before ++ [v])). rewrite length_app in IH. simpl in IH.
      rewrite Nat.add_1_r, <- app_assoc in IH. apply IH. lia.
Qed.

(** With distinct column names and rows as wide as the header, the polars
    frame is the pandas frame, cell for cell. *)
Lemma arrow_table_distinct (df : Frame) :
  NoDup (map column_name (labels df)) ->
  Forall (fun row => length row = length (labels df)) (rows df) ->
  arrow_table df =
    {| names := map column_name (labels df); records := map (map to_arrow) (rows df) |}.
Proof.
  intros Hnd Hwide. unfold arrow_table. rewrite arrow_dict_distinct by assumption.
  f_equal.
  - rewrite fst_zip; [reflexivity |]. rewrite length_seq, length_map. lia.
  - apply map_ext_Forall. eapply Forall_impl; [exact Hwide |].
    intros row Hrow. simpl in Hrow. rewrite <- Hrow.
    apply (select_cells_suffix _ [] row). rewrite length_map. lia.
Qed.

(** Two columns whose translated names are equal are both in the renamed
    frame, which pandas allows; it is the conversion to polars that refuses
    such a frame, so [load_data] reports the error and returns [None]. *)
Example colliding_translations :
  labels (rename COLUMN_TRANSLATIONS colliding_frame)
  = [LStr (py "Jogos Disputados"); LStr (py "Jogos Disputados")]
  /\ from_pandas (serving 200 colliding_table) (rename COLUMN_TRANSLATIONS colliding_frame)
     = Raise duplicate_names_error
  /\ load_data_body (serving 200 colliding_table) None fresh
     = (Ok None,
        {| requests_sent := 1; documents_parsed := 1;
           page := [error_message duplicate_names_error]; cache := ∅ |}).
Proof. vm_compute. repeat split; reflexivity. Qed.


(** ** Null-row elimination *)

Lemma filter_idempotent {A} (f : A -> bool) (l : list A) :
  List.filter f (List.filter f l) = List.filter f l.
Proof. apply forallb_filter_id, forallb_filter. Qed.

Lemma filter_keeps_all {A} (f : A -> bool) (l : list A) :
  length (List.filter f l) = length l <-> forall x, x ∈ l -> f x = true.
Proof.
  split.
  - intros H x Hx. apply filter_length_forallb in H.
    rewrite forallb_forall in H. apply H, list_elem_of_In, Hx.
  - intros H. rewrite forallb_filter_id; [reflexivity |].
    apply forallb_forall. intros x Hx. apply H, list_elem_of_In, Hx.
Qed.

Lemma has_null_spec (row : list pl_value) : has_null row = true <-> Null ∈ row.
Proof.
  unfold has_null. rewrite existsb_exists. split.
  - intros (v & Hin & Hv). destruct v; try discriminate. apply list_elem_of_In, Hin.
  - intros H. exists Null. split; [apply list_elem_of_In, H | reflexivity].
Qed.

(** C6: dropping the rows with a null a second time changes nothing; the
    result never has more rows than the input, and has as many exactly when
    no row of the input holds a missing value. *)
Theorem drop_nulls_monotone_idempotent (df : PlFrame) :
  drop_nulls (drop_nulls df) = drop_nulls df
  /\ (length (records (drop_nulls df)) <= length (records df))%nat
  /\ (length (records (drop_nulls df)) = length (records df)
      <-> forall row, row ∈ records df -> has_null row = false)
  /\ (forall row, has_null row = false <-> Null ∉ row).
Proof.
  split; [| split; [| split]].
  - unfold drop_nulls. simpl. rewrite filter_idempotent. reflexivity.
  - simpl. apply filter_length_le.
  - simpl. rewrite filter_keeps_all. split; intros H row Hrow.
    + apply negb_true_iff, H, Hrow.
    + apply negb_true_iff, H, Hrow.
  - intros row. rewrite <- has_null_spec. destruct (has_null row); split; congruence.
Qed.

Lemma to_arrow_null (v : pd_value) : to_arrow v = Null <-> v = PdNA.
Proof. destruct v; simpl; split; congruence. Qed.

Lemma has_null_to_arrow (src : list pd_value) :
  has_null (map to_arrow src) = existsb is_missing src.
Proof.
  unfold has_null. induction src as [| v src IH]; [reflexivity |].
  simpl. rewrite IH. destruct v; reflexivity.
Qed.

Lemma filter_map_swap {A B} (f : B -> bool) (g : A -> B) (l : list A) :
  List.filter f (map g l) = map g (List.filter (fun x => f (g x)) l).
Proof.
  induction l as [| x l IH]; [reflexivity |].
  simpl. destruct (f (g x)); simpl; rewrite IH; reflexivity.
Qed.

Lemma filter_sublist {A} (f : A -> bool) (l : list A) : sublist (List.filter f l) l.
Proof.
  induction l as [| x l IH]; simpl; [constructor |].
  destruct (f x); [apply sublist_skip | apply sublist_cons]; exact IH.
Qed.

Lemma filter_elem_of {A} (f : A -> bool) (l : list A) (x : A) :
  x ∈ List.filter f l <-> x ∈ l /\ f x = true.
Proof. rewrite !list_elem_of_In. apply filter_In. Qed.

(** What a successful [normalize] returns. *)
Lemma normalize_ok (w : World) (t : DataFrame) (df : PlFrame) :
  normalize w t = Ok df ->
  exists cols,
    flatten_header (columns t) = Ok cols
    /\ df = drop_nulls (arrow_table (rename COLUMN_TRANSLATIONS
                                       {| labels := cols; rows := values t |})).
Proof.
  unfold normalize, from_pandas. intros H.
  destruct (flatten_header (columns t)) as [cols | e]; [| discriminate].
  exists cols. split; [reflexivity |]. cbv zeta in H.
  destruct (bool_decide _); [| discriminate].
  destruct (arrow_error w _); [discriminate |]. congruence.
Qed.

(** C7, as the code has it: a row is in the result exactly when it is a row
    of the extracted table, cell for cell, and holds no null; the nulls are
    the missing values of the pandas frame and nothing else, so a row is
    dropped for a missing value and kept, whole, otherwise, whatever text
    its cells hold. *)
Theorem rows_with_null_are_dropped (w : World) (t : DataFrame) (df : PlFrame) :
  normalize w t = Ok df ->
  exists cols,
    flatten_header (columns t) = Ok cols
    /\ (forall row,
          row ∈ records df
          <-> row ∈ map (select_cells
                           (arrow_dict (map (rename_label COLUMN_TRANSLATIONS) cols)))
                        (values t)
              /\ Null ∉ row)
    /\ (forall v, to_arrow v = Null <-> v = PdNA)
    /\ (NoDup (map column_name (map (rename_label COLUMN_TRANSLATIONS) cols)) ->
        Forall (fun src => length src = length cols) (values t) ->
        records df =
          map (map to_arrow)
            (List.filter (fun src => negb (existsb is_missing src)) (values t))).
Proof.
  intros H. apply normalize_ok in H as (cols & Hcols & ->).
  exists cols. split; [exact Hcols |]. split; [| split].
  - intros row. simpl. rewrite filter_elem_of, negb_true_iff.
    rewrite <- has_null_spec. destruct (has_null row); split; intros [? ?]; split;
      congruence.
  - apply to_arrow_null.
  - intros Hnd Hwide. unfold drop_nulls.
    rewrite arrow_table_distinct.
    + simpl. rewrite filter_map_swap. f_equal.
      apply filter_ext. intros src. rewrite has_null_to_arrow. reflexivity.
    + exact Hnd.
    + simpl. eapply Forall_impl; [exact Hwide |]. intros src Hsrc. simpl in *.
      rewrite length_map. exact Hsrc.
Qed.

Lemma rows_with_null_are_dropped_witness :
  exists cols,
    flatten_header (columns two_level_table) = Ok cols
    /\ (forall row,
          row ∈ [[Int64 10; Int64 7]; [Int64 12; Int64 8]]
          <-> row ∈ map (select_cells
                           (arrow_dict (map (rename_label COLUMN_TRANSLATIONS) cols)))
                        (values two_level_table)
              /\ Null ∉ row)
    /\ (forall v, to_arrow v = Null <-> v = PdNA)
    /\ (NoDup (map column_name (map (rename_label COLUMN_TRANSLATIONS) cols)) ->
        Forall (fun src => length src = length cols) (values two_level_table) ->
        [[Int64 10; Int64 7]; [Int64 12; Int64 8]] =
          map (map to_arrow)
            (List.filter (fun src => negb (existsb is_missing src)) (values two_level_table))).
Proof.
  apply (rows_with_null_are_dropped (serving 200 two_level_table) two_level_table
           {| names := [py "Geral MP"; py "Geral V"];
              records := [[Int64 10; Int64 7]; [Int64 12; Int64 8]] |}).
  vm_compute. reflexivity.
Defined.

(** The row with a dash in a column of numbers is in the table
    [load_data] returns. *)
Lemma dash_row_is_kept :
  fst (load_data (serving 200 dash_table) None fresh)
  = Ok (Some {| names := [py "Jogos Disputados"; py "Vitórias"];
                records := [[Int64 10; Utf8 (py "—")]; [Int64 12; Utf8 (py "7")]] |}).
Proof. vm_compute. reflexivity. Qed.

(** ** One run of the function under the decorator *)

(** The state after the request, and after the request and the parse. *)
Lemma load_data_body_run (w : World) (code : option str) (p : Process) :
  load_data_body w code p =
    match requests_get w (requests_sent p) (build_url code) headers with
    | Raise e => (Ok None, set_page (page p ++ [error_message e]) (count_request p))
    | Ok response =>
        let p2 := count_document (count_request p) in
        match read_html w (text response) with
        | Raise e => (Ok None, set_page (page p ++ [error_message e]) p2)
        | Ok tables =>
            match first_item tables with
            | Raise e => (Ok None, set_page (page p ++ [error_message e]) p2)
            | Ok t =>
                match normalize w t with
                | Raise e => (Ok None, set_page (page p ++ [error_message e]) p2)
                | Ok df => (Ok (Some df), p2)
                end
            end
        end
    end.
Proof.
  unfold load_data_body, try_except, load_data_try, bind, http_get, pd_read_html, lift, ret.
  destruct (requests_get w (requests_sent p) (build_url code) headers) as [response | e];
    [| reflexivity].
  destruct (read_html w (text response)) as [tables | e]; [| reflexivity].
  cbv zeta. destruct (first_item tables) as [t | e]; [| reflexivity].
  destruct (normalize w t) as [df | e]; reflexivity.
Qed.

Lemma load_data_try_run (w : World) (url : str) (p : Process) :
  fst (load_data_try w url p) =
    match requests_get w (requests_sent p) url headers with
    | Raise e => Raise e
    | Ok response =>
        match read_html w (text response) with
        | Raise e => Raise e
        | Ok tables =>
            match first_item tables with
            | Raise e => Raise e
            | Ok t =>
                match normalize w t with
                | Raise e => Raise e
                | Ok df => Ok (Some df)
                end
            end
        end
    end.
Proof.
  unfold load_data_try, bind, http_get, pd_read_html, lift, ret.
  destruct (requests_get w (requests_sent p) url headers) as [response | e]; [| reflexivity].
  destruct (read_html w (text response)) as [tables | e]; [| reflexivity].
  destruct (first_item tables) as [t | e]; [| reflexivity].
  destruct (normalize w t) as [df | e]; reflexivity.
Qed.

Lemma load_data_body_returns (w : World) (code : option str) (p : Process) :
  exists v p', load_data_body w code p = (Ok v, p').
Proof.
  rewrite load_data_body_run.
  repeat match goal with
         | |- context [match ?x with Ok _ => _ | Raise _ => _ end] => destruct x
         end; cbv zeta; eauto.
Qed.

Lemma load_data_body_effects (w : World) (code : option str) (p : Process) :
  cache (snd (load_data_body w code p)) = cache p
  /\ requests_sent (snd (load_data_body w code p)) = S (requests_sent p).
Proof.
  rewrite load_data_body_run.
  repeat match goal with
         | |- context [match ?x with Ok _ => _ | Raise _ => _ end] => destruct x
         end; cbv zeta; simpl; auto.
Qed.

(** C10: [load_data], with and without its decorator, returns for every
    argument in every state and never raises: when a step of the [try] body
    raises, the exception is caught, its message is put on the page and
    [None] is returned; when no step raises, the value returned is a table
    and nothing is put on the page. *)
Theorem load_data_total (w : World) (code : option str) (p : Process) :
  (exists v p', load_data w code p = (Ok v, p'))
  /\ exists v p',
       load_data_body w code p = (Ok v, p')
       /\ match v with
          | Some df =>
              fst (load_data_try w (build_url code) p) = Ok (Some df) /\ page p' = page p
          | None =>
              exists e,
                fst (load_data_try w (build_url code) p) = Raise e
                /\ page p' = page p ++ [error_message e]
          end.
Proof.
  split.
  - unfold load_data, cache_data.
    destruct (cache p !! code) as [[value elements] |]; [eauto |].
    destruct (load_data_body_returns w code (set_page [] p)) as (v & p' & ->). eauto.
  - rewrite load_data_body_run, load_data_try_run.
    destruct (requests_get w (requests_sent p) (build_url code) headers) as [response | e].
    2: { exists None. eexists. split; [reflexivity |]. exists e. split; reflexivity. }
    cbv zeta.
    destruct (read_html w (text response)) as [tables | e].
    2: { exists None. eexists. split; [reflexivity |]. exists e. split; reflexivity. }
    destruct (first_item tables) as [t | e].
    2: { exists None. eexists. split; [reflexivity |]. exists e. split; reflexivity. }
    destruct (normalize w t) as [df | e].
    + exists (Some df). eexists. split; [reflexivity |]. split; reflexivity.
    + exists None. eexists. split; [reflexivity |]. exists e. split; reflexivity.
Qed.

(** ** Failures *)

(** Failures inside the [try] that come from the code itself, not from the
    network: indexing an empty list of tables, joining a level that is not
    a [str]. *)
Example empty_listing_is_reported :
  load_data_body empty_listing None fresh
  = (Ok None,
     {| requests_sent := 1; documents_parsed := 1;
        page := [py "Erro ao carregar dados: list index out of range"]; cache := ∅ |}).
Proof. vm_compute. reflexivity. Qed.

Example int_level_is_reported :
  load_data_body (serving 200 int_level_table) None fresh
  = (Ok None,
     {| requests_sent := 1; documents_parsed := 1;
        page := [py "Erro ao carregar dados: sequence item 1: expected str instance, int found"];
        cache := ∅ |}).
Proof. vm_compute. reflexivity. Qed.

Lemma from_pandas_raises (w : World) (df : Frame) (e : exn) :
  from_pandas w df = Raise e
  <-> (~ NoDup (map column_name (labels df)) /\ e = duplicate_names_error)
      \/ (NoDup (map column_name (labels df)) /\ arrow_error w df = Some e).
Proof.
  unfold from_pandas. destruct (bool_decide_reflect (NoDup (map column_name (labels df)))) as [Hnd | Hnd].
  - destruct (arrow_error w df) as [e' |]; split.
    + intros H. injection H as <-. right. auto.
    + intros [[Hno _] | [_ H]]; [contradiction | congruence].
    + discriminate.
    + intros [[Hno _] | [_ H]]; [contradiction | discriminate].
  - split.
    + intros H. injection H as <-. left. auto.
    + intros [[_ ->] | [Hyes _]]; [reflexivity | contradiction].
Qed.

Lemma normalize_raises (w : World) (t : DataFrame) (e : exn) :
  normalize w t = Raise e
  <-> flatten_header (columns t) = Raise e
      \/ exists cols,
           flatten_header (columns t) = Ok cols
           /\ from_pandas w (rename COLUMN_TRANSLATIONS {| labels := cols; rows := values t |})
              = Raise e.
Proof.
  unfold normalize. destruct (flatten_header (columns t)) as [cols | e0].
  - cbv zeta.
    destruct (from_pandas w (rename COLUMN_TRANSLATIONS {| labels := cols; rows := values t |}))
      as [df | e1] eqn:Hconv; split.
    + discriminate.
    + intros [H | (cols' & Hc & H)]; [discriminate |]. injection Hc as <-. congruence.
    + intros H. right. exists cols. split; [reflexivity | congruence].
    + intros [H | (cols' & Hc & H)]; [discriminate |]. injection Hc as <-. congruence.
  - split.
    + intros H. left. congruence.
    + intros [H | (cols & Hc & _)]; [congruence | discriminate].
Qed.

Lemma load_data_body_caught (w : World) (code : option str) (p : Process) (e : exn) :
  fst (load_data_try w (build_url code) p) = Raise e ->
  load_data_body w code p
  = (Ok None,
     set_page (page (snd (load_data_try w (build_url code) p)) ++ [error_message e])
       (snd (load_data_try w (build_url code) p))).
Proof.
  unfold load_data_body, try_except.
  destruct (load_data_try w (build_url code) p) as [[v | e'] p']; simpl; [discriminate |].
  intros H. injection H as ->. reflexivity.
Qed.

(** C8, as the code has it: an exception raised by the request, by the
    parser, by taking the first table, or while normalising (the join of a
    header, the refusal of equal column names, the conversion of a column)
    ends the same way, with [None] and one message made of the fixed prefix
    and the text of the exception, whose class is not reported; the status
    code of a response that arrived is not looked at, so two sites that
    differ in status codes only give the same result. *)
Theorem failures_share_one_outcome :
  (forall w code p e,
      requests_get w (requests_sent p) (build_url code) headers = Raise e ->
      load_data_body w code p
      = (Ok None, set_page (page p ++ [error_message e]) (count_request p)))
  /\ (forall w code p response e,
        requests_get w (requests_sent p) (build_url code) headers = Ok response ->
        read_html w (text response) = Raise e ->
        load_data_body w code p
        = (Ok None,
           set_page (page p ++ [error_message e]) (count_document (count_request p))))
  /\ (forall e e', exn_str e = exn_str e' -> error_message e = error_message e')
  /\ (forall w w' code p,
        same_but_status w w' -> load_data_body w code p = load_data_body w' code p)
  /\ (forall w code p response,
        requests_get w (requests_sent p) (build_url code) headers = Ok response ->
        read_html w (text response) = Ok [] ->
        load_data_body w code p
        = (Ok None,
           set_page
             (page p ++ [error_message (Exn (py "IndexError") (py "list index out of range"))])
             (count_document (count_request p))))
  /\ (forall w code p response t others e,
        requests_get w (requests_sent p) (build_url code) headers = Ok response ->
        read_html w (text response) = Ok (t :: others) ->
        normalize w t = Raise e ->
        load_data_body w code p
        = (Ok None,
           set_page (page p ++ [error_message e]) (count_document (count_request p))))
  /\ (forall w t e,
        normalize w t = Raise e
        <-> flatten_header (columns t) = Raise e
            \/ exists cols,
                 flatten_header (columns t) = Ok cols
                 /\ from_pandas w
                      (rename COLUMN_TRANSLATIONS {| labels := cols; rows := values t |})
                    = Raise e)
  /\ (forall w df e,
        from_pandas w df = Raise e
        <-> (~ NoDup (map column_name (labels df)) /\ e = duplicate_names_error)
            \/ (NoDup (map column_name (labels df)) /\ arrow_error w df = Some e))
  /\ (forall w code p e,
        fst (load_data_try w (build_url code) p) = Raise e ->
        load_data_body w code p
        = (Ok None,
           set_page (page (snd (load_data_try w (build_url code) p)) ++ [error_message e])
             (snd (load_data_try w (build_url code) p)))).
Proof.
  split; [| split; [| split; [| split; [| split; [| split; [| split; [| split]]]]]]].
  - intros w code p e H. rewrite load_data_body_run, H. reflexivity.
  - intros w code p response e H1 H2. rewrite load_data_body_run, H1. cbv zeta.
    rewrite H2. reflexivity.
  - intros e e' H. unfold error_message. rewrite H. reflexivity.
  - intros w w' code p (Hget & Hread & Harrow).
    rewrite !load_data_body_run.
    specialize (Hget (requests_sent p) (build_url code) headers).
    destruct (requests_get w _ _ _) as [r | e], (requests_get w' _ _ _) as [r' | e'];
      try contradiction; [| congruence].
    cbv zeta. rewrite Hget, Hread.
    destruct (read_html w' (text r')) as [tables | e]; [| reflexivity].
    destruct (first_item tables) as [t | e]; [| reflexivity].
    assert (Hn : normalize w t = normalize w' t).
    { unfold normalize, from_pandas.
      destruct (flatten_header (columns t)); [| reflexivity]. cbv zeta.
      rewrite Harrow. reflexivity. }
    rewrite Hn. reflexivity.
  - intros w code p response H1 H2. rewrite load_data_body_run, H1. cbv zeta.
    rewrite H2. reflexivity.
  - intros w code p response t others e H1 H2 H3. rewrite load_data_body_run, H1. cbv zeta.
    rewrite H2. cbn [first_item]. rewrite H3. reflexivity.
  - apply normalize_raises.
  - apply from_pandas_raises.
  - apply load_data_body_caught.
Qed.

Lemma failures_share_one_outcome_witness :
  load_data_body no_table None fresh
  = (Ok None,
     set_page (page fresh ++ [error_message (Exn (py "ValueError") (py "No tables found"))])
       (count_document (count_request fresh)))
  /\ load_data_body (first_request_lost dash_table) None fresh
     = (Ok None,
        set_page
          (page fresh ++ [error_message (Exn (py "ConnectionError") (py "Connection aborted."))])
          (count_request fresh))
  /\ load_data_body (serving 200 dash_table) None fresh
     = load_data_body (serving 404 dash_table) None fresh
  /\ load_data_body empty_listing None fresh
     = (Ok None,
        set_page
          (page fresh ++ [error_message (Exn (py "IndexError") (py "list index out of range"))])
          (count_document (count_request fresh)))
  /\ load_data_body (serving 200 colliding_table) None fresh
     = (Ok None,
        set_page (page fresh ++ [error_message duplicate_names_error])
          (count_document (count_request fresh)))
  /\ load_data_body (serving 200 int_level_table) None fresh
     = (Ok None,
        set_page
          (page (snd (load_data_try (serving 200 int_level_table) (build_url None) fresh))
             ++ [error_message
                   (Exn (py "TypeError")
                      (py "sequence item 1: expected str instance, int found"))])
          (snd (load_data_try (serving 200 int_level_table) (build_url None) fresh))).
Proof.
  destruct failures_share_one_outcome
    as (Hget & Hread & _ & Hstatus & Hfirst & Hnorm & _ & _ & Hany).
  split; [| split; [| split; [| split; [| split]]]].
  - apply (Hread no_table None fresh {| status_code := 200; text := py "<html></html>" |});
      reflexivity.
  - apply (Hget (first_request_lost dash_table) None fresh); reflexivity.
  - apply Hstatus. split; [| split]; intros; reflexivity.
  - apply (Hfirst empty_listing None fresh {| status_code := 200; text := py "<html></html>" |});
      reflexivity.
  - apply (Hnorm (serving 200 colliding_table) None fresh
             {| status_code := 200; text := py "<table>" |} colliding_table []);
      vm_compute; reflexivity.
  - apply (Hany (serving 200 int_level_table) None fresh). vm_compute. reflexivity.
Defined.

(** A response with status 404 whose body holds a table is parsed like any
    other: [load_data] returns the table and reports nothing. *)
Lemma not_found_page_is_parsed :
  requests_get (serving 404 dash_table) 0 (build_url None) headers
  = Ok {| status_code := 404; text := py "<table>" |}
  /\ fst (load_data (serving 404 dash_table) None fresh)
     = Ok (Some {| names := [py "Jogos Disputados"; py "Vitórias"];
                   records := [[Int64 10; Utf8 (py "—")]; [Int64 12; Utf8 (py "7")]] |})
  /\ page (snd (load_data (serving 404 dash_table) None fresh)) = [].
Proof. vm_compute. repeat split; reflexivity. Qed.

(** ** Row order *)

(** C9: when [load_data] builds a table, its rows are rows of the first
    table of the document, converted cell by cell, and they stand in the
    order they have in the document: flattening and translation touch the
    header only, and dropping rows never moves one. *)
Theorem row_order_is_preserved (w : World) (code : option str) (p p' : Process)
    (df : PlFrame) :
  load_data_body w code p = (Ok (Some df), p') ->
  exists response t others cols kept,
    requests_get w (requests_sent p) (build_url code) headers = Ok response
    /\ read_html w (text response) = Ok (t :: others)
    /\ flatten_header (columns t) = Ok cols
    /\ sublist kept (values t)
    /\ records df
       = map (select_cells (arrow_dict (map (rename_label COLUMN_TRANSLATIONS) cols))) kept.
Proof.
  rewrite load_data_body_run.
  destruct (requests_get w (requests_sent p) (build_url code) headers)
    as [response | e] eqn:Hget; [| discriminate].
  cbv zeta. destruct (read_html w (text response)) as [tables | e] eqn:Hread; [| discriminate].
  destruct tables as [| t others]; [discriminate |]. simpl.
  destruct (normalize w t) as [df' | e] eqn:Hn; [| discriminate].
  intros H. injection H as -> _.
  apply normalize_ok in Hn as (cols & Hcols & ->).
  exists response, t, others, cols. eexists.
  split; [reflexivity |]. split; [exact Hread |]. split; [exact Hcols |].
  simpl. rewrite filter_map_swap. split; [apply filter_sublist | reflexivity].
Qed.

Lemma row_order_is_preserved_witness :
  exists response t others cols kept,
    requests_get (serving 200 two_level_table) (requests_sent fresh) (build_url None) headers
    = Ok response
    /\ read_html (serving 200 two_level_table) (text response) = Ok (t :: others)
    /\ flatten_header (columns t) = Ok cols
    /\ sublist kept (values t)
    /\ [[Int64 10; Int64 7]; [Int64 12; Int64 8]]
       = map (select_cells (arrow_dict (map (rename_label COLUMN_TRANSLATIONS) cols))) kept.
Proof.
  apply (row_order_is_preserved (serving 200 two_level_table) None fresh
           (count_document (count_request fresh))
           {| names := [py "Geral MP"; py "Geral V"];
              records := [[Int64 10; Int64 7]; [Int64 12; Int64 8]] |}).
  vm_compute. reflexivity.
Defined.

(** ** The cache *)

Section Cache.
Context (w : World).

Lemma load_data_hit (arg : option str) (p : Process) (v : option PlFrame)
    (elements : list str) :
  cache p !! arg = Some (v, elements) ->
  load_data w arg p = (Ok v, set_page (page p ++ elements) p).
Proof. intros H. unfold load_data, cache_data. rewrite H. reflexivity. Qed.

Lemma load_data_miss (arg : option str) (p : Process) :
  cache p !! arg = None ->
  exists v p',
    load_data_body w arg (set_page [] p) = (Ok v, p')
    /\ load_data w arg p
       = (Ok v, set_cache (<[arg := (v, page p')]> (cache p))
                  (set_page (page p ++ page p') p')).
Proof.
  intros H. unfold load_data, cache_data. rewrite H.
  pose proof (load_data_body_effects w arg (set_page [] p)) as [Hc _].
  destruct (load_data_body_returns w arg (set_page [] p)) as (v & p' & Hrun).
  rewrite Hrun in *. simpl in Hc. rewrite Hc. eauto.
Qed.

(** A call that returns leaves its result in the store. *)
Lemma load_data_stores (arg : option str) (p p1 : Process) (v : option PlFrame) :
  load_data w arg p = (Ok v, p1) ->
  exists elements, cache p1 !! arg = Some (v, elements).
Proof.
  destruct (cache p !! arg) as [[v0 els] |] eqn:Hc.
  - rewrite (load_data_hit _ _ _ _ Hc). intros H. injection H as <- <-.
    exists els. exact Hc.
  - destruct (load_data_miss _ _ Hc) as (v0 & p' & _ & ->).
    intros H. injection H as <- <-. exists (page p'). simpl. apply lookup_insert_eq.
Qed.

(** No call removes or replaces an entry of the store. *)
Lemma load_data_keeps (arg other : option str) (p : Process)
    (x : option PlFrame * list str) :
  cache p !! arg = Some x -> cache (snd (load_data w other p)) !! arg = Some x.
Proof.
  intros Hx. destruct (cache p !! other) as [[v0 els] |] eqn:Hc.
  - rewrite (load_data_hit _ _ _ _ Hc). exact Hx.
  - destruct (load_data_miss _ _ Hc) as (v0 & p' & _ & ->). simpl.
    rewrite lookup_insert_ne; [exact Hx | congruence].
Qed.

Lemma calls_keep (arg : option str) (later : list (option str)) (p : Process)
    (x : option PlFrame * list str) :
  cache p !! arg = Some x -> cache (calls w later p) !! arg = Some x.
Proof.
  revert p. induction later as [| other later IH]; intros p Hx; [exact Hx |].
  simpl. apply IH, load_data_keeps, Hx.
Qed.

(** Once a call has returned [v], every later call with the same
    argument returns [v] from the store: it sends no request, parses no
    document and leaves the store as it is. *)
Lemma stored_result_is_reused (arg : option str) (p p1 : Process)
    (v : option PlFrame) (later : list (option str)) :
  load_data w arg p = (Ok v, p1) ->
  exists elements p3,
    load_data w arg (calls w later p1) = (Ok v, p3)
    /\ requests_sent p3 = requests_sent (calls w later p1)
    /\ documents_parsed p3 = documents_parsed (calls w later p1)
    /\ cache p3 = cache (calls w later p1)
    /\ page p3 = page (calls w later p1) ++ elements
    /\ cache p3 !! arg = Some (v, elements).
Proof.
  intros H. apply load_data_stores in H as (els & Hels).
  apply (calls_keep _ later) in Hels.
  exists els. eexists. split; [apply load_data_hit, Hels |].
  simpl. auto.
Qed.

(** C2: after a call of [load_data] that returned a table, every later
    call with the same argument, whatever calls come in between, returns
    that same table from the store, and neither sends a request nor parses
    a document. *)
Theorem cached_table_is_reused (arg : option str) (p p1 : Process) (df : PlFrame)
    (later : list (option str)) :
  load_data w arg p = (Ok (Some df), p1) ->
  exists elements p3,
    load_data w arg (calls w later p1) = (Ok (Some df), p3)
    /\ requests_sent p3 = requests_sent (calls w later p1)
    /\ documents_parsed p3 = documents_parsed (calls w later p1)
    /\ cache p3 = cache (calls w later p1)
    /\ cache (calls w later p1) !! arg = Some (Some df, elements).
Proof.
  intros H.
  destruct (stored_result_is_reused arg p p1 (Some df) later H)
    as (els & p3 & Hrun & Hreq & Hdoc & Hcache & _ & Hlook).
  exists els, p3. rewrite <- Hcache. auto.
Qed.

(** C1, as the code has it: a call of [load_data] that returned [None]
    has stored [None] like any other value: every later call with the same
    argument returns [None] from the store and shows the stored message
    again, without sending a request or parsing a document. *)
Theorem failure_is_cached (arg : option str) (p p1 : Process)
    (later : list (option str)) :
  load_data w arg p = (Ok None, p1) ->
  exists elements p3,
    load_data w arg (calls w later p1) = (Ok None, p3)
    /\ requests_sent p3 = requests_sent (calls w later p1)
    /\ documents_parsed p3 = documents_parsed (calls w later p1)
    /\ page p3 = page (calls w later p1) ++ elements
    /\ cache p3 !! arg = Some (None, elements).
Proof.
  intros H.
  destruct (stored_result_is_reused arg p p1 None later H)
    as (els & p3 & Hrun & Hreq & Hdoc & _ & Hpage & Hlook).
  exists els, p3. auto.
Qed.
End Cache.

Lemma cached_table_is_reused_witness :
  exists elements p3,
    load_data (serving 200 two_level_table) (Some (py "2021-2022"))
      (calls (serving 200 two_level_table) [None; Some (py "2022-2023")]
         (snd (load_data (serving 200 two_level_table) (Some (py "2021-2022")) fresh)))
    = (Ok (Some {| names := [py "Geral MP"; py "Geral V"];
                   records := [[Int64 10; Int64 7]; [Int64 12; Int64 8]] |}), p3)
    /\ requests_sent p3 = 3%nat
    /\ documents_parsed p3 = 3%nat
    /\ cache p3
       = cache (calls (serving 200 two_level_table) [None; Some (py "2022-2023")]
                  (snd (load_data (serving 200 two_level_table) (Some (py "2021-2022")) fresh)))
    /\ cache (calls (serving 200 two_level_table) [None; Some (py "2022-2023")]
                (snd (load_data (serving 200 two_level_table) (Some (py "2021-2022")) fresh)))
         !! Some (py "2021-2022")
       = Some (Some {| names := [py "Geral MP"; py "Geral V"];
                       records := [[Int64 10; Int64 7]; [Int64 12; Int64 8]] |}, elements).
Proof.
  apply (cached_table_is_reused (serving 200 two_level_table) (Some (py "2021-2022")) fresh
           (snd (load_data (serving 200 two_level_table) (Some (py "2021-2022")) fresh))
           {| names := [py "Geral MP"; py "Geral V"];
              records := [[Int64 10; Int64 7]; [Int64 12; Int64 8]] |}
           [None; Some (py "2022-2023")]).
  vm_compute. reflexivity.
Defined.

Lemma failure_is_cached_witness :
  exists elements p3,
    load_data (first_request_lost dash_table) None
      (calls (first_request_lost dash_table) [Some (py "2021-2022")] after_lost_request)
    = (Ok None, p3)
    /\ requests_sent p3 = 2%nat
    /\ documents_parsed p3 = 1%nat
    /\ page p3
       = page (calls (first_request_lost dash_table) [Some (py "2021-2022")] after_lost_request)
           ++ elements
    /\ cache p3 !! None = Some (None, elements).
Proof.
  apply (failure_is_cached (first_request_lost dash_table) None fresh after_lost_request
           [Some (py "2021-2022")]).
  vm_compute. reflexivity.
Defined.

(** The first request of the process is lost, so the first call returns
    [None]; the network then works, and running the function again would
    return the table, but the second call returns the stored [None] and sends
    no request. *)
Lemma failure_is_not_retried :
  load_data (first_request_lost dash_table) None fresh = (Ok None, after_lost_request)
  /\ requests_sent after_lost_request = 1%nat
  /\ fst (load_data (first_request_lost dash_table) None after_lost_request) = Ok None
  /\ requests_sent (snd (load_data (first_request_lost dash_table) None after_lost_request))
     = 1%nat
  /\ fst (load_data_body (first_request_lost dash_table) None after_lost_request)
     = Ok (Some {| names := [py "Jogos Disputados"; py "Vitórias"];
                   records := [[Int64 10; Utf8 (py "—")]; [Int64 12; Utf8 (py "7")]] |}).
Proof. vm_compute. repeat split; reflexivity. Qed.


Lemma drop_nulls_monotone_idempotent_witness :
  has_null [Int64 10; Utf8 (py "—")] = false.
Proof.
  apply (proj1 (proj1 (proj2 (proj2
           (drop_nulls_monotone_idempotent
              {| names := [py "MP"; py "V"];
                 records := [[Int64 10; Utf8 (py "—")]; [Int64 12; Utf8 (py "7")]] |}))))).
  - reflexivity.
  - apply list_elem_of_here.
Defined.

(** ** What a call costs *)

Lemma load_data_body_parses (w : World) (code : option str) (p : Process) :
  documents_parsed (snd (load_data_body w code p))
  = (documents_parsed p
     + match requests_get w (requests_sent p) (build_url code) headers with
       | Ok _ => 1
       | Raise _ => 0
       end)%nat.
Proof.
  rewrite load_data_body_run.
  destruct (requests_get w (requests_sent p) (build_url code) headers) as [response | e];
    [| simpl; lia].
  cbv zeta.
  repeat match goal with
         | |- context [match ?x with Ok _ => _ | Raise _ => _ end] => destruct x
         end; simpl; lia.
Qed.

Lemma load_data_hit_cost (w : World) (arg : option str) (p : Process)
    (x : option PlFrame * list str) :
  cache p !! arg = Some x ->
  requests_sent (snd (load_data w arg p)) = requests_sent p
  /\ documents_parsed (snd (load_data w arg p)) = documents_parsed p
  /\ cache (snd (load_data w arg p)) = cache p.
Proof.
  destruct x as [v els]. intros Hc. rewrite (load_data_hit w arg p v els Hc). simpl. auto.
Qed.

Lemma load_data_miss_cost (w : World) (arg : option str) (p : Process) :
  cache p !! arg = None ->
  requests_sent (snd (load_data w arg p)) = S (requests_sent p)
  /\ documents_parsed (snd (load_data w arg p))
     = (documents_parsed p
        + match requests_get w (requests_sent p) (build_url arg) headers with
          | Ok _ => 1
          | Raise _ => 0
          end)%nat
  /\ dom (cache (snd (load_data w arg p))) = {[arg]} ∪ dom (cache p).
Proof.
  intros Hc. destruct (load_data_miss w arg p Hc) as (v & p' & Hbody & ->). simpl.
  pose proof (load_data_body_effects w arg (set_page [] p)) as [_ Hreq].
  pose proof (load_data_body_parses w arg (set_page [] p)) as Hdoc.
  rewrite Hbody in Hreq, Hdoc. simpl in Hreq, Hdoc.
  split; [exact Hreq |]. split; [exact Hdoc |]. apply dom_insert_L.
Qed.

(** X1: A call whose argument is in the store sends no request, parses nothing
    and leaves the store alone; any other call sends exactly one request,
    hands a document to the parser only if that request brought a response,
    and adds its argument to the store: there is no retry, whatever the
    outcome. *)
Theorem one_request_per_miss (w : World) (arg : option str) (p : Process) :
  match cache p !! arg with
  | Some _ =>
      requests_sent (snd (load_data w arg p)) = requests_sent p
      /\ documents_parsed (snd (load_data w arg p)) = documents_parsed p
      /\ cache (snd (load_data w arg p)) = cache p
  | None =>
      requests_sent (snd (load_data w arg p)) = S (requests_sent p)
      /\ documents_parsed (snd (load_data w arg p))
         = (documents_parsed p
            + match requests_get w (requests_sent p) (build_url arg) headers with
              | Ok _ => 1
              | Raise _ => 0
              end)%nat
      /\ dom (cache (snd (load_data w arg p))) = {[arg]} ∪ dom (cache p)
  end.
Proof.
  destruct (cache p !! arg) as [x |] eqn:Hc.
  - apply (load_data_hit_cost w arg p x Hc).
  - apply (load_data_miss_cost w arg p Hc).
Qed.

Lemma load_data_dom (w : World) (arg : option str) (p : Process) :
  dom (cache (snd (load_data w arg p))) = {[arg]} ∪ dom (cache p).
Proof.
  destruct (cache p !! arg) as [x |] eqn:Hc.
  - destruct (load_data_hit_cost w arg p x Hc) as (_ & _ & ->).
    symmetry. apply subseteq_union_1_L, singleton_subseteq_l, elem_of_dom. eauto.
  - apply (load_data_miss_cost w arg p Hc).
Qed.

Lemma load_data_counts (w : World) (arg : option str) (p : Process) :
  requests_sent p = size (cache p) /\ (documents_parsed p <= requests_sent p)%nat ->
  requests_sent (snd (load_data w arg p)) = size (cache (snd (load_data w arg p)))
  /\ (documents_parsed (snd (load_data w arg p)) <= requests_sent (snd (load_data w arg p)))%nat.
Proof.
  intros [Hsize Hle].
  destruct (cache p !! arg) as [x |] eqn:Hc.
  - destruct (load_data_hit_cost w arg p x Hc) as (-> & -> & ->). auto.
  - destruct (load_data_miss_cost w arg p Hc) as (Hreq & Hdoc & Hdom).
    rewrite Hreq, Hdoc. split.
    + rewrite <- size_dom, Hdom, size_union, size_singleton, size_dom by
        (apply disjoint_singleton_l, not_elem_of_dom; exact Hc).
      lia.
    + destruct (requests_get w _ _ _); lia.
Qed.

Lemma calls_dom (w : World) (args : list (option str)) (p : Process) :
  dom (cache (calls w args p)) = list_to_set args ∪ dom (cache p).
Proof.
  revert p. induction args as [| arg args IH]; intros p; simpl.
  - rewrite (left_id_L ∅ (∪)). reflexivity.
  - rewrite IH, load_data_dom, (assoc_L (∪)), (comm_L (∪) (list_to_set args)). reflexivity.
Qed.

Lemma calls_counts (w : World) (args : list (option str)) (p : Process) :
  requests_sent p = size (cache p) /\ (documents_parsed p <= requests_sent p)%nat ->
  requests_sent (calls w args p) = size (cache (calls w args p))
  /\ (documents_parsed (calls w args p) <= requests_sent (calls w args p))%nat.
Proof.
  revert p. induction args as [| arg args IH]; intros p H; [exact H |].
  simpl. apply IH, load_data_counts, H.
Qed.

(** X2: In a process that starts with an empty store, however many calls are
    made and in whatever order, the number of requests sent is the number of
    distinct arguments called with; the store holds exactly these
    arguments, and no more documents were parsed than requests sent. *)
Theorem requests_count_distinct_arguments (w : World) (args : list (option str)) :
  requests_sent (calls w args fresh) = size (list_to_set args : gset (option str))
  /\ dom (cache (calls w args fresh)) = list_to_set args
  /\ (documents_parsed (calls w args fresh) <= requests_sent (calls w args fresh))%nat.
Proof.
  assert (Hdom : dom (cache (calls w args fresh)) = list_to_set args).
  { rewrite calls_dom. simpl. rewrite dom_empty_L. apply (right_id_L ∅ (∪)). }
  destruct (calls_counts w args fresh) as [Hsize Hle].
  { simpl. rewrite map_size_empty. auto. }
  split; [| split; [exact Hdom | exact Hle]].
  rewrite Hsize, <- size_dom, Hdom. reflexivity.
Qed.

(** ** What the caller can rely on *)

Lemma dict_set_nodup {V} (k : str) (v : V) (d : list (str * V)) :
  NoDup (map fst d) -> NoDup (map fst (dict_set k v d)).
Proof.
  induction d as [| [k' v'] d IH]; simpl; intros Hnd.
  - apply NoDup_singleton.
  - apply NoDup_cons in Hnd as [Hk Hnd].
    destruct (decide (k' = k)) as [-> |]; simpl.
    + apply NoDup_cons. auto.
    + apply NoDup_cons. split; [| auto].
      rewrite dict_set_keys. intros [-> | Hin]; [congruence | contradiction].
Qed.

Lemma arrow_dict_from_nodup (j : nat) (ls : list label) (d : list (str * nat)) :
  NoDup (map fst d) -> NoDup (map fst (arrow_dict_from j ls d)).
Proof.
  revert j d. induction ls as [| l ls IH]; intros j d Hnd; simpl; [exact Hnd |].
  apply IH, dict_set_nodup, Hnd.
Qed.

Lemma arrow_dict_nodup (ls : list label) : NoDup (map fst (arrow_dict ls)).
Proof. apply arrow_dict_from_nodup. simpl. apply NoDup_nil_2. Qed.

Lemma normalize_table_ok (w : World) (t : DataFrame) (df : PlFrame) :
  normalize w t = Ok df -> table_ok df.
Proof.
  intros H. apply normalize_ok in H as (cols & _ & ->).
  split; simpl.
  - apply arrow_dict_nodup.
  - apply List.Forall_forall. intros row Hrow.
    apply filter_In in Hrow as [Hin Hnull]. apply negb_true_iff in Hnull.
    split; [exact Hnull |].
    apply in_map_iff in Hin as (src & <- & _).
    unfold select_cells. rewrite !length_map. reflexivity.
Qed.

(** What a run of the function under the decorator leaves on an empty
    page, with the value it returns. *)
Lemma load_data_body_elements (w : World) (code : option str) (p p' : Process)
    (v : option PlFrame) :
  load_data_body w code (set_page [] p) = (Ok v, p') ->
  match v with
  | Some df => table_ok df /\ page p' = []
  | None => exists e, page p' = [error_message e]
  end.
Proof.
  rewrite load_data_body_run. simpl.
  destruct (requests_get w (requests_sent p) (build_url code) headers) as [response | e].
  2: { intros H. injection H as <- <-. exists e. reflexivity. }
  destruct (read_html w (text response)) as [tables | e].
  2: { intros H. injection H as <- <-. exists e. reflexivity. }
  destruct (first_item tables) as [t | e].
  2: { intros H. injection H as <- <-. exists e. reflexivity. }
  destruct (normalize w t) as [df | e] eqn:Hn.
  - intros H. injection H as <- <-. split; [eapply normalize_table_ok, Hn | reflexivity].
  - intros H. injection H as <- <-. exists e. reflexivity.
Qed.

Lemma load_data_result_ok (w : World) (arg : option str) (p p' : Process)
    (v : option PlFrame) :
  store_ok p ->
  load_data w arg p = (Ok v, p') ->
  store_ok p'
  /\ exists elements,
       page p' = page p ++ elements
       /\ match v with
          | Some df => table_ok df /\ elements = []
          | None => exists e, elements = [error_message e]
          end.
Proof.
  intros Hstore. destruct (cache p !! arg) as [[v0 els] |] eqn:Hc.
  - rewrite (load_data_hit w arg p v0 els Hc). intros H. injection H as <- <-.
    split; [exact Hstore |]. exists els. split; [reflexivity |]. apply (Hstore arg), Hc.
  - destruct (load_data_miss w arg p Hc) as (v0 & p0 & Hbody & ->).
    intros H. injection H as <- <-.
    pose proof (load_data_body_elements w arg p p0 v0 Hbody) as Hels.
    assert (Hnew : match v0 with
                   | Some df => table_ok df /\ page p0 = []
                   | None => exists e, page p0 = [error_message e]
                   end) by exact Hels.
    split.
    + intros k v els. simpl. rewrite lookup_insert. destruct (decide (arg = k)) as [<- |].
      * intros Heq. injection Heq as <- <-. exact Hnew.
      * apply Hstore.
    + exists (page p0). split; [reflexivity | exact Hnew].
Qed.

Lemma load_data_returns (w : World) (arg : option str) (p : Process) :
  exists v p', load_data w arg p = (Ok v, p').
Proof.
  destruct (cache p !! arg) as [[v els] |] eqn:Hc.
  - rewrite (load_data_hit w arg p v els Hc). eauto.
  - destruct (load_data_miss w arg p Hc) as (v & p' & _ & ->). eauto.
Qed.

Lemma fresh_store_ok : store_ok fresh.
Proof. intros arg v els H. simpl in H. rewrite lookup_empty in H. discriminate. Qed.

Lemma calls_store_ok (w : World) (args : list (option str)) (p : Process) :
  store_ok p -> store_ok (calls w args p).
Proof.
  revert p. induction args as [| arg args IH]; intros p Hp; [exact Hp |].
  simpl. apply IH.
  destruct (load_data_returns w arg p) as (v & p' & Hrun).
  rewrite Hrun. simpl. exact (proj1 (load_data_result_ok w arg p p' v Hp Hrun)).
Qed.

(** X3: In a process that starts with an empty store, every table [load_data]
    ever returns, from the function or from the store, is well formed: its
    column names are distinct, every row is as wide as the header, and no
    cell is null. *)
Theorem returned_table_is_well_formed (w : World) (args : list (option str))
    (arg : option str) (df : PlFrame) (p' : Process) :
  load_data w arg (calls w args fresh) = (Ok (Some df), p') -> table_ok df.
Proof.
  intros H.
  destruct (load_data_result_ok w arg _ p' (Some df) (calls_store_ok w args fresh fresh_store_ok) H)
    as (_ & els & _ & Hok & _).
  exact Hok.
Qed.

Lemma returned_table_is_well_formed_witness :
  table_ok {| names := [py "Geral MP"; py "Geral V"];
              records := [[Int64 10; Int64 7]; [Int64 12; Int64 8]] |}.
Proof.
  apply (returned_table_is_well_formed (serving 200 two_level_table)
           [None; Some (py "2021-2022")] (Some (py "2021-2022")) _
           (snd (load_data (serving 200 two_level_table) (Some (py "2021-2022"))
                   (calls (serving 200 two_level_table) [None; Some (py "2021-2022")] fresh)))).
  vm_compute. reflexivity.
Defined.

(** X4: In a process that starts with an empty store, a call that returns a
    table puts nothing on the page, and a call that returns [None] puts
    exactly one message on it, the fixed prefix followed by the text of an
    exception, be the failure new or replayed from the store. *)
Theorem one_message_per_failure (w : World) (args : list (option str))
    (arg : option str) (v : option PlFrame) (p' : Process) :
  load_data w arg (calls w args fresh) = (Ok v, p') ->
  match v with
  | Some _ => page p' = page (calls w args fresh)
  | None => exists e, page p' = page (calls w args fresh) ++ [error_message e]
  end.
Proof.
  intros H.
  destruct (load_data_result_ok w arg _ p' v (calls_store_ok w args fresh fresh_store_ok) H)
    as (_ & els & Hpage & Hok).
  destruct v as [df |].
  - destruct Hok as [_ ->]. rewrite app_nil_r in Hpage. exact Hpage.
  - destruct Hok as (e & ->). exists e. exact Hpage.
Qed.

Lemma one_message_per_failure_witness :
  exists e,
    page (snd (load_data no_table None (calls no_table [None] fresh)))
    = page (calls no_table [None] fresh) ++ [error_message e].
Proof.
  apply (one_message_per_failure no_table [None] None None
           (snd (load_data no_table None (calls no_table [None] fresh)))).
  vm_compute. reflexivity.
Defined.

(** ** What a run asks of the world *)

(** X5: The function under the decorator consults the network once, for the
    URL of its argument and with the browser-like [User-Agent] header, as
    the next request of the process: two worlds that answer this one request
    alike, and parse and convert alike, give the same run, whatever else
    they would answer. *)
Theorem load_data_asks_one_request (w w' : World) (code : option str) (p : Process) :
  requests_get w (requests_sent p) (build_url code) headers
  = requests_get w' (requests_sent p) (build_url code) headers ->
  (forall doc, read_html w doc = read_html w' doc) ->
  (forall df, arrow_error w df = arrow_error w' df) ->
  load_data_body w code p = load_data_body w' code p.
Proof.
  intros Hget Hread Harrow. rewrite !load_data_body_run, Hget.
  destruct (requests_get w' (requests_sent p) (build_url code) headers) as [r | e];
    [| reflexivity].
  cbv zeta. rewrite Hread.
  destruct (read_html w' (text r)) as [tables | e]; [| reflexivity].
  destruct (first_item tables) as [t | e]; [| reflexivity].
  assert (Hn : normalize w t = normalize w' t).
  { unfold normalize, from_pandas.
    destruct (flatten_header (columns t)); [| reflexivity]. cbv zeta.
    rewrite Harrow. reflexivity. }
  rewrite Hn. reflexivity.
Qed.

Lemma load_data_asks_one_request_witness :
  load_data_body (first_request_lost dash_table) None after_lost_request
  = load_data_body (serving 200 dash_table) None after_lost_request.
Proof.
  apply load_data_asks_one_request; intros; reflexivity.
Defined.

(** ** One URL per season *)

Lemma build_url_falsy (code : option str) :
  truthy code = false ->
  build_url code
  = py "https://fbref.com/pt/comps/Big5/" ++ py "Maiores-5-Ligas-Europeias-Estatisticas".
Proof. unfold build_url. intros ->. vm_compute. reflexivity. Qed.

Lemma build_url_truthy (code : option str) :
  truthy code = true ->
  exists s,
    code = Some s
    /\ build_url code
       = py "https://fbref.com/pt/comps/Big5/"
           ++ s ++ py "/" ++ s ++ py "-Maiores-5-Ligas-Europeias-Estatisticas".
Proof.
  destruct code as [[| c s] |]; try discriminate. intros _.
  exists (c :: s). split; [reflexivity | apply build_url_season].
Qed.

Lemma season_url_is_not_base (s : str) :
  s ++ py "/" ++ s ++ py "-Maiores-5-Ligas-Europeias-Estatisticas"
  <> py "Maiores-5-Ligas-Europeias-Estatisticas".
Proof.
  intros H. apply (f_equal length) in H. rewrite !length_app in H.
  assert (Hsuf : length (py "-Maiores-5-Ligas-Europeias-Estatisticas") = 39%nat)
    by (vm_compute; reflexivity).
  assert (Hbase : length (py "Maiores-5-Ligas-Europeias-Estatisticas") = 38%nat)
    by (vm_compute; reflexivity).
  rewrite Hsuf, Hbase in H. lia.
Qed.

Lemma build_url_same (code code' : option str) :
  build_url code = build_url code'
  <-> code = code' \/ (truthy code = false /\ truthy code' = false).
Proof.
  split.
  - intros H.
    destruct (truthy code) eqn:Hc, (truthy code') eqn:Hc'.
    + left.
      destruct (build_url_truthy code Hc) as (s & -> & Hs).
      destruct (build_url_truthy code' Hc') as (s' & -> & Hs').
      rewrite Hs, Hs' in H. apply app_inv_head in H.
      assert (Hlen : length s = length s').
      { apply (f_equal length) in H. rewrite !length_app in H. lia. }
      apply app_inj_1 in H; [| exact Hlen]. destruct H as [-> _]. reflexivity.
    + destruct (build_url_truthy code Hc) as (s & -> & Hs).
      rewrite Hs, (build_url_falsy code' Hc') in H. apply app_inv_head in H.
      destruct (season_url_is_not_base s H).
    + destruct (build_url_truthy code' Hc') as (s & -> & Hs).
      rewrite Hs, (build_url_falsy code Hc) in H. apply app_inv_head in H.
      symmetry in H. destruct (season_url_is_not_base s H).
    + right. auto.
  - intros [-> | [Hc Hc']]; [reflexivity |].
    rewrite (build_url_falsy code Hc), (build_url_falsy code' Hc'). reflexivity.
Qed.

(** X6: Two arguments are fetched from the same URL only if they are the same
    argument or are both false in Python's sense ([None] and the empty
    string, which both give the base listing URL): distinct season strings
    never share a URL, and no season string leads to the page of the current
    season.  Every URL is on the one site, under the one listing. *)
Theorem one_url_per_season (code code' : option str) :
  (build_url code = build_url code'
   <-> code = code' \/ (truthy code = false /\ truthy code' = false))
  /\ exists rest, build_url code = py "https://fbref.com/pt/comps/Big5/" ++ rest.
Proof.
  split; [apply build_url_same |].
  destruct (truthy code) eqn:Hc.
  - destruct (build_url_truthy code Hc) as (s & _ & ->). eauto.
  - rewrite (build_url_falsy code Hc). eauto.
Qed.

(** ** Headers that cannot be flattened *)

Lemma join_from_result (i : nat) (sep : str) (items : list label) :
  match join_from i sep items with
  | Ok _ => forallb is_str items = true
  | Raise e => forallb is_str items = false /\ exn_class e = py "TypeError"
  end.
Proof.
  revert i. induction items as [| l rest IH]; intros i; [reflexivity |].
  destruct l as [s | z]; [| simpl; auto].
  destruct rest as [| l' rest']; [reflexivity |].
  change (join_from i sep (LStr s :: l' :: rest'))
    with (match join_from (S i) sep (l' :: rest') with
          | Ok t => Ok (s ++ sep ++ t)
          | Raise e => Raise e
          end).
  specialize (IH (S i)). destruct (join_from (S i) sep (l' :: rest')); exact IH.
Qed.

Lemma strip_idempotent (s : str) : strip (strip s) = strip s.
Proof.
  symmetry. apply trim_of_unique.
  destruct (strip_trim_of s) as (l & r & _ & _ & _ & Hst & Hen).
  exists [], []. rewrite app_nil_r. auto.
Qed.

(** X7: A multi-level header is flattened exactly when every level of every
    column is a [str]: it then gives one name per column, none with
    whitespace at either end; a level of any other type makes the join, and
    with it the whole flattening, raise a [TypeError]. *)
Theorem flatten_needs_str_levels (tuples : list (list label)) :
  match flatten_header (MultiIndex tuples) with
  | Ok flat =>
      forallb (forallb is_str) tuples = true
      /\ length flat = length tuples
      /\ Forall (fun l => exists s, l = LStr s /\ strip s = s) flat
  | Raise e =>
      forallb (forallb is_str) tuples = false /\ exn_class e = py "TypeError"
  end.
Proof.
  cbn [flatten_header].
  induction tuples as [| col rest IH]; [simpl; auto |].
  simpl. unfold join. pose proof (join_from_result 0 (py " ") col) as Hcol.
  destruct (join_from 0 (py " ") col) as [s | e].
  - rewrite Hcol. simpl. destruct (flatten_tuples rest) as [names | e].
    + destruct IH as (Hall & Hlen & Hflat). split; [exact Hall |]. split; [simpl; lia |].
      apply List.Forall_cons; [| exact Hflat].
      exists (strip s). split; [reflexivity | apply strip_idempotent].
    + exact IH.
  - destruct Hcol as [-> Hclass]. auto.
Qed.

(** ** Columns that share a name *)

Lemma arrow_table_names (df : Frame) :
  NoDup (map column_name (labels df)) ->
  names (arrow_table df) = map column_name (labels df).
Proof.
  intros Hnd. unfold arrow_table. cbn [names]. rewrite arrow_dict_distinct by exact Hnd.
  apply fst_zip. rewrite length_seq, length_map. lia.
Qed.

(** X8: [pl.from_pandas] converts a frame only if no two of its labels read
    as the same name: it then keeps every column, in order and under its own
    name, and every row, cell for cell when the rows are as wide as the
    header; a frame in which two labels have the same name is refused with
    a [ValueError], so a page whose first table has two columns with one
    translated name makes [load_data] report that error and return
    [None]. *)
Theorem equal_names_are_refused :
  (forall w df,
      match from_pandas w df with
      | Ok out =>
          NoDup (map column_name (labels df))
          /\ names out = map column_name (labels df)
          /\ length (records out) = length (rows df)
          /\ (Forall (fun row => length row = length (labels df)) (rows df) ->
              records out = map (map to_arrow) (rows df))
      | Raise e =>
          (~ NoDup (map column_name (labels df))
           /\ e = duplicate_names_error /\ exn_class e = py "ValueError")
          \/ (NoDup (map column_name (labels df)) /\ arrow_error w df = Some e)
      end)
  /\ (forall w code p response t others cols,
        requests_get w (requests_sent p) (build_url code) headers = Ok response ->
        read_html w (text response) = Ok (t :: others) ->
        flatten_header (columns t) = Ok cols ->
        ~ NoDup (map column_name (map (rename_label COLUMN_TRANSLATIONS) cols)) ->
        load_data_body w code p
        = (Ok None,
           set_page (page p ++ [error_message duplicate_names_error])
             (count_document (count_request p)))).
Proof.
  split.
  - intros w df. unfold from_pandas.
    destruct (bool_decide_reflect (NoDup (map column_name (labels df)))) as [Hnd | Hnd].
    + destruct (arrow_error w df) as [e |]; [right; auto |].
      split; [exact Hnd |]. split; [apply arrow_table_names, Hnd |].
      split; [unfold arrow_table; cbn [records]; apply length_map |].
      intros Hwide. rewrite (arrow_table_distinct df Hnd Hwide). reflexivity.
    + left. split; [exact Hnd |]. split; reflexivity.
  - intros w code p response t others cols Hget Hread Hcols Hdup.
    rewrite load_data_body_run, Hget. cbv zeta. rewrite Hread. cbn [first_item].
    unfold normalize, from_pandas. rewrite Hcols. cbv zeta.
    rewrite bool_decide_eq_false_2 by exact Hdup. reflexivity.
Qed.

Lemma equal_names_are_refused_witness :
  load_data_body (serving 200 colliding_table) None fresh
  = (Ok None,
     set_page (page fresh ++ [error_message duplicate_names_error])
       (count_document (count_request fresh))).
Proof.
  apply (proj2 equal_names_are_refused (serving 200 colliding_table) None fresh
           {| status_code := 200; text := py "<table>" |} colliding_table []
           [LStr (py "MP"); LStr (py "Jogos Disputados")]).
  - reflexivity.
  - reflexivity.
  - reflexivity.
  - apply (bool_decide_eq_false_1 _). vm_compute. reflexivity.
Defined.

(** ** The translation table *)

Lemma translations_checked :
  forallb
    (fun st =>
       forallb
         (fun st' =>
            implb (bool_decide (snd st = snd st')) (bool_decide (fst st = fst st')))
         (map_to_list COLUMN_TRANSLATIONS)
       && match COLUMN_TRANSLATIONS !! snd st with
          | Some t => bool_decide (t = snd st)
          | None => true
          end)
    (map_to_list COLUMN_TRANSLATIONS) = true.
Proof. vm_compute. reflexivity. Qed.

Lemma translation_injective (s s' t : str) :
  COLUMN_TRANSLATIONS !! s = Some t -> COLUMN_TRANSLATIONS !! s' = Some t -> s = s'.
Proof.
  intros Hs Hs'. apply elem_of_map_to_list, list_elem_of_In in Hs, Hs'.
  pose proof translations_checked as H. rewrite forallb_forall in H.
  apply H, andb_prop in Hs as [Hs _]. rewrite forallb_forall in Hs.
  apply Hs in Hs'. cbn [fst snd] in Hs'.
  rewrite bool_decide_eq_true_2 in Hs' by reflexivity.
  apply bool_decide_eq_true in Hs'. exact Hs'.
Qed.

Lemma translation_fixed (s t : str) :
  COLUMN_TRANSLATIONS !! s = Some t ->
  rename_label COLUMN_TRANSLATIONS (LStr t) = LStr t.
Proof.
  intros Hs. apply elem_of_map_to_list, list_elem_of_In in Hs.
  pose proof translations_checked as H. rewrite forallb_forall in H.
  apply H, andb_prop in Hs as [_ Hs]. cbn [snd] in Hs. cbn [rename_label].
  destruct (COLUMN_TRANSLATIONS !! t) as [t' |]; [| reflexivity].
  apply bool_decide_eq_true in Hs. rewrite Hs. reflexivity.
Qed.

Lemma rename_label_idempotent (l : label) :
  rename_label COLUMN_TRANSLATIONS (rename_label COLUMN_TRANSLATIONS l)
  = rename_label COLUMN_TRANSLATIONS l.
Proof.
  destruct l as [s | z]; [| reflexivity].
  cbn [rename_label]. destruct (COLUMN_TRANSLATIONS !! s) as [t |] eqn:Hs.
  - exact (translation_fixed s t Hs).
  - cbn [rename_label]. rewrite Hs. reflexivity.
Qed.

(** X9: Translating twice is translating once: no translated name is itself
    the source of another translation.  No two source names are translated
    to one name, so two columns end up with the same translated name only if
    one of them carried that name already and was left as it was. *)
Theorem translation_is_stable :
  (forall l,
      rename_label COLUMN_TRANSLATIONS (rename_label COLUMN_TRANSLATIONS l)
      = rename_label COLUMN_TRANSLATIONS l)
  /\ (forall df,
        rename COLUMN_TRANSLATIONS (rename COLUMN_TRANSLATIONS df)
        = rename COLUMN_TRANSLATIONS df)
  /\ (forall s s' t,
        COLUMN_TRANSLATIONS !! s = Some t -> COLUMN_TRANSLATIONS !! s' = Some t -> s = s')
  /\ (forall l l',
        rename_label COLUMN_TRANSLATIONS l = rename_label COLUMN_TRANSLATIONS l' ->
        l = l'
        \/ rename_label COLUMN_TRANSLATIONS l = l
        \/ rename_label COLUMN_TRANSLATIONS l' = l').
Proof.
  split; [apply rename_label_idempotent |]. split; [| split].
  - intros df. unfold rename. cbn [labels rows]. f_equal.
    rewrite <- list_fmap_compose. apply list_fmap_ext. intros i l _.
    apply rename_label_idempotent.
  - apply translation_injective.
  - intros l l' H.
    destruct l as [s | z]; [| right; left; reflexivity].
    destruct l' as [s' | z']; [| right; right; reflexivity].
    cbn [rename_label] in *.
    destruct (COLUMN_TRANSLATIONS !! s) as [t |] eqn:Hs; [| right; left; reflexivity].
    destruct (COLUMN_TRANSLATIONS !! s') as [t' |] eqn:Hs'; [| right; right; reflexivity].
    left. injection H as <-. f_equal. eapply translation_injective; eassumption.
Qed.

Lemma translation_is_stable_witness : py "MP" = py "MP".
Proof.
  apply (proj1 (proj2 (proj2 translation_is_stable)) (py "MP") (py "MP")
           (py "Jogos Disputados")); vm_compute; reflexivity.
Defined.

(** ** A session of the application *)

Lemma season_codes_distinct : NoDup (map snd SEASONS).
Proof. apply (bool_decide_unpack _). vm_compute. exact I. Qed.

(** X10: [main] calls [load_data] with the code of an entry of [SEASONS] and
    with nothing else, so a process that starts with an empty store sends at
    most six requests in its whole life, one per entry, however often the
    script is run again and whatever seasons are selected. *)
Theorem at_most_one_request_per_season (w : World) (args : list (option str)) :
  Forall (fun arg => arg ∈ map snd SEASONS) args ->
  (requests_sent (calls w args fresh) <= 6)%nat.
Proof.
  intros Hargs.
  destruct (calls_counts w args fresh) as [-> _].
  { simpl. rewrite map_size_empty. auto. }
  rewrite <- size_dom, calls_dom. simpl. rewrite dom_empty_L, (right_id_L ∅ (∪)).
  transitivity (size (list_to_set (map snd SEASONS) : gset (option str))).
  - apply subseteq_size. intros x Hx. apply elem_of_list_to_set in Hx.
    apply elem_of_list_to_set. rewrite List.Forall_forall in Hargs.
    apply Hargs, list_elem_of_In, Hx.
  - rewrite size_list_to_set by apply season_codes_distinct. reflexivity.
Qed.

Lemma at_most_one_request_per_season_witness :
  (requests_sent
     (calls (serving 200 dash_table)
        [None; Some (py "2021-2022"); None; Some (py "2018-2019"); Some (py "2021-2022")]
        fresh) <= 6)%nat.
Proof.
  apply at_most_one_request_per_season.
  repeat (apply List.Forall_cons; [apply (bool_decide_unpack _); vm_compute; exact I |]).
  apply List.Forall_nil.
Defined.

(** ** A table without rows *)

Lemma filter_rows_all_missing (n : nat) (srcs : list (list pd_value)) :
  Forall (fun src => existsb is_missing src = true /\ length src = n) srcs ->
  List.filter (fun src => negb (has_null (map to_arrow src))) srcs = [].
Proof.
  induction srcs as [| src rest IH]; intros H; [reflexivity |].
  apply List.Forall_cons_iff in H as [[Hsrc _] Hrest].
  cbn [List.filter]. rewrite has_null_to_arrow, Hsrc. cbn [negb]. apply IH, Hrest.
Qed.

(** X11: A table whose every row lacks a value is not a failure: when the
    request, the parse and the conversion go through, [load_data] returns a
    table with the translated header and no row, and reports nothing; the
    same holds for a table that has no row to begin with. *)
Theorem empty_table_is_not_a_failure (w : World) (code : option str) (p : Process)
    (response : Response) (t : DataFrame) (others : list DataFrame) (cols : list label) :
  requests_get w (requests_sent p) (build_url code) headers = Ok response ->
  read_html w (text response) = Ok (t :: others) ->
  flatten_header (columns t) = Ok cols ->
  arrow_error w (rename COLUMN_TRANSLATIONS {| labels := cols; rows := values t |}) = None ->
  NoDup (map column_name (map (rename_label COLUMN_TRANSLATIONS) cols)) ->
  Forall (fun src => existsb is_missing src = true /\ length src = length cols) (values t) ->
  load_data_body w code p
  = (Ok (Some {| names := map column_name (map (rename_label COLUMN_TRANSLATIONS) cols);
                 records := [] |}),
     count_document (count_request p)).
Proof.
  intros Hget Hread Hcols Harrow Hnd Hrows.
  rewrite load_data_body_run, Hget. cbv zeta. rewrite Hread. cbn [first_item].
  unfold normalize, from_pandas. rewrite Hcols. cbv zeta. rewrite Harrow.
  rewrite bool_decide_eq_true_2 by exact Hnd.
  unfold drop_nulls. rewrite arrow_table_distinct.
  - cbn [names records labels rows rename]. do 3 f_equal.
    rewrite filter_map_swap.
    rewrite (filter_rows_all_missing _ _ Hrows). reflexivity.
  - exact Hnd.
  - cbn [labels rows rename]. rewrite length_map.
    eapply Forall_impl; [exact Hrows |]. intros src [_ Hlen]. exact Hlen.
Qed.

Lemma empty_table_is_not_a_failure_witness :
  load_data_body (serving 200 all_missing_table) None fresh
  = (Ok (Some {| names := map column_name
                            (map (rename_label COLUMN_TRANSLATIONS)
                               [LStr (py "Equipe"); LStr (py "MP")]);
                 records := [] |}),
     count_document (count_request fresh)).
Proof.
  apply (empty_table_is_not_a_failure (serving 200 all_missing_table) None fresh
           {| status_code := 200; text := py "<table>" |} all_missing_table []
           [LStr (py "Equipe"); LStr (py "MP")]).
  - reflexivity.
  - reflexivity.
  - reflexivity.
  - reflexivity.
  - apply (bool_decide_unpack _). vm_compute. exact I.
  - repeat (apply List.Forall_cons; [split; reflexivity |]). apply List.Forall_nil.
Defined.

(** ** The views of the overview page *)

Lemma index_of_Some (name : str) (ns : list str) (j : nat) :
  index_of name ns = Some j -> ns !! j = Some name.
Proof.
  revert j. induction ns as [| n rest IH]; intros j; simpl; [discriminate |].
  destruct (decide (n = name)) as [-> |].
  - intros H. injection H as <-. reflexivity.
  - destruct (index_of name rest) as [k |]; [| discriminate].
    intros H. injection H as <-. simpl. apply IH. reflexivity.
Qed.

Lemma index_of_None (name : str) (ns : list str) :
  index_of name ns = None <-> name ∉ ns.
Proof.
  induction ns as [| n rest IH]; simpl.
  - split; [intros _; apply not_elem_of_nil | reflexivity].
  - rewrite not_elem_of_cons. destruct (decide (n = name)) as [-> |].
    + split; [discriminate | intros [H _]; contradiction].
    + destruct (index_of name rest) as [k |]; simpl.
      * split; [discriminate |]. intros [_ H]. apply IH in H. discriminate.
      * split; [| reflexivity]. intros _. split; [congruence | apply IH; reflexivity].
Qed.

Lemma value_eq_refl (v : pl_value) : v <> Null -> value_eq v v = true.
Proof.
  destruct v as [| z | q | s]; simpl; intros H.
  - contradiction.
  - apply Z.eqb_refl.
  - apply Qeq_bool_iff, Qeq_refl.
  - apply bool_decide_eq_true_2. reflexivity.
Qed.

Lemma cell_not_null (row : list pl_value) (j : nat) :
  has_null row = false -> (j < length row)%nat -> default Null (row !! j) <> Null.
Proof.
  intros Hnull Hj. destruct (lookup_lt_is_Some_2 row j Hj) as (v & Hv).
  rewrite Hv. simpl. intros ->.
  apply list_elem_of_lookup_2, has_null_spec in Hv. congruence.
Qed.

Lemma filter_table_ok (df : PlFrame) (f : list pl_value -> bool) :
  table_ok df -> table_ok {| names := names df; records := List.filter f (records df) |}.
Proof.
  intros [Hnd Hrows]. split; [exact Hnd |]. simpl.
  apply List.Forall_forall. intros row Hrow. apply filter_In in Hrow as [Hin _].
  rewrite List.Forall_forall in Hrows. apply Hrows, Hin.
Qed.

(** X12: What the overview page does with a well-formed table and a column it
    has: the column holds no null; for every value in the column the filter
    gives a well-formed table that is not empty and whose rows are rows of
    the table in their order; and every row of the table is in the view of
    the value it holds, so no row is missing from all the views. *)
Theorem views_cover_the_table (df : PlFrame) (name : str) (col : list pl_value) :
  table_ok df ->
  get_column df name = Some col ->
  (Null ∉ col)
  /\ length col = length (records df)
  /\ (forall selected,
        selected ∈ col ->
        exists view,
          filter_eq df name selected = Some view
          /\ records view <> []
          /\ sublist (records view) (records df)
          /\ table_ok view)
  /\ (forall row,
        row ∈ records df ->
        exists selected view,
          selected ∈ col
          /\ filter_eq df name selected = Some view
          /\ row ∈ records view).
Proof.
  intros Hok Hcol. pose proof Hok as [Hnd Hrows].
  unfold get_column in Hcol. unfold filter_eq.
  destruct (index_of name (names df)) as [j |] eqn:Hj; [| discriminate].
  injection Hcol as <-.
  assert (Hjlt : (j < length (names df))%nat).
  { eapply lookup_lt_Some, index_of_Some, Hj. }
  rewrite List.Forall_forall in Hrows.
  assert (Hcell : forall row, row ∈ records df -> default Null (row !! j) <> Null).
  { intros row Hrow. apply list_elem_of_In, Hrows in Hrow as [Hnull Hlen].
    apply cell_not_null; [exact Hnull | lia]. }
  split; [| split; [| split]].
  - intros Hin. apply list_elem_of_fmap in Hin as (row & Heq & Hrow).
    apply (Hcell row Hrow). congruence.
  - apply length_map.
  - intros selected Hsel. apply list_elem_of_fmap in Hsel as (row & -> & Hrow).
    eexists. split; [reflexivity |]. simpl. split; [| split].
    + intros Hempty.
      assert (Hin : row ∈ List.filter
                      (fun r => value_eq (default Null (r !! j)) (default Null (row !! j)))
                      (records df)).
      { apply filter_elem_of. split; [exact Hrow | apply value_eq_refl, Hcell, Hrow]. }
      rewrite Hempty in Hin. apply elem_of_nil in Hin. contradiction.
    + apply filter_sublist.
    + apply (filter_table_ok df), Hok.
  - intros row Hrow. exists (default Null (row !! j)). eexists.
    split; [| split; [reflexivity |]].
    + apply list_elem_of_fmap. exists row. auto.
    + simpl. apply filter_elem_of. split; [exact Hrow | apply value_eq_refl, Hcell, Hrow].
Qed.

Lemma views_cover_the_table_witness :
  (Null ∉ [Utf8 (py "eng ENG"); Utf8 (py "es ESP"); Utf8 (py "eng ENG")])
  /\ length [Utf8 (py "eng ENG"); Utf8 (py "es ESP"); Utf8 (py "eng ENG")]
     = length (records standings)
  /\ (forall selected,
        selected ∈ [Utf8 (py "eng ENG"); Utf8 (py "es ESP"); Utf8 (py "eng ENG")] ->
        exists view,
          filter_eq standings (py "País") selected = Some view
          /\ records view <> []
          /\ sublist (records view) (records standings)
          /\ table_ok view)
  /\ (forall row,
        row ∈ records standings ->
        exists selected view,
          selected ∈ [Utf8 (py "eng ENG"); Utf8 (py "es ESP"); Utf8 (py "eng ENG")]
          /\ filter_eq standings (py "País") selected = Some view
          /\ row ∈ records view).
Proof.
  apply (views_cover_the_table standings (py "País")).
  - split.
    + apply (bool_decide_unpack _). vm_compute. exact I.
    + repeat (apply List.Forall_cons; [split; reflexivity |]). apply List.Forall_nil.
  - vm_compute. reflexivity.
Defined.
